(** * CORS middleware (baa-middleware/cors, cors.go): model and properties

    A shallow embedding of [cors.go].  Go strings are byte strings and are
    modelled by [string]; [http.Header] (a [map[string][]string]) is modelled
    by a [gmap string (list string)]; the response header map that the handler
    mutates through [c.Resp.Header()] is threaded explicitly; the two ways a
    baa handler can end ([c.Next()] and [c.Break()]) are the constructors of
    [Chain]; the [panic] of [Cors] is the [Panic] constructor of
    [Construction]. *)

From Stdlib Require Import Ascii NArith ZArith Bool List Lia.
From stdpp Require Import base strings gmap.

Local Open Scope string_scope.
Local Open Scope list_scope.

(** ** Go standard library: the [strings] package *)

Module strings.

(** [strings.HasPrefix(s, prefix)]. *)
Fixpoint HasPrefix (s prefix : string) : bool :=
  match prefix, s with
  | EmptyString, _ => true
  | String p prefix', String c s' => Ascii.eqb c p && HasPrefix s' prefix'
  | String _ _, EmptyString => false
  end.

(** The loop of [genSplit(s, sep, 0, -1)] for a non-empty [sep]: the
    tokens between the successive leftmost, non-overlapping occurrences
    of [sep].  [skip] counts the bytes of an occurrence of [sep] that was
    found and is still to be stepped over. *)
Fixpoint genSplit (sep : string) (skip : nat) (s : string) : list string :=
  match s with
  | EmptyString => [EmptyString]
  | String c s' =>
      match skip with
      | S k => genSplit sep k s'
      | O =>
          if HasPrefix s sep
          then EmptyString :: genSplit sep (String.length sep - 1) s'
          else match genSplit sep 0 s' with
               | tok :: rest => String c tok :: rest
               | [] => [String c EmptyString]
               end
      end
  end.

(** [strings.Split(s, sep)], for a separator that is not empty (both call
    sites of [cors.go] pass a constant: [", "] and [","]). *)
Definition Split (s sep : string) : list string := genSplit sep 0 s.

(** [strings.Join(elems, sep)]. *)
Fixpoint Join (elems : list string) (sep : string) : string :=
  match elems with
  | [] => EmptyString
  | [x] => x
  | x :: rest => x +:+ sep +:+ Join rest sep
  end.

(** The slice [s[n:]], for [n <= len(s)]. *)
Fixpoint sliceFrom (n : nat) (s : string) : string :=
  match n, s with
  | O, _ => s
  | S n', String _ s' => sliceFrom n' s'
  | S _, EmptyString => EmptyString
  end.

(** [strings.Contains(s, substr)]. *)
Fixpoint Contains (s substr : string) : bool :=
  HasPrefix s substr ||
  match s with
  | EmptyString => false
  | String _ s' => Contains s' substr
  end.

(** Membership of a byte in an ASCII cut set ([asciiSet.contains]). *)
Fixpoint contains (cutset : string) (c : ascii) : bool :=
  match cutset with
  | EmptyString => false
  | String d cutset' => Ascii.eqb d c || contains cutset' c
  end.

(** [trimLeftASCII]. *)
Fixpoint TrimLeft (s cutset : string) : string :=
  match s with
  | EmptyString => EmptyString
  | String c s' => if contains cutset c then TrimLeft s' cutset else s
  end.

(** [trimRightASCII]. *)
Fixpoint TrimRight (s cutset : string) : string :=
  match s with
  | EmptyString => EmptyString
  | String c s' =>
      match TrimRight s' cutset with
      | EmptyString => if contains cutset c then EmptyString else String c EmptyString
      | t => String c t
      end
  end.

(** [strings.Trim(s, cutset)] for a cut set of ASCII bytes: the right end
    is trimmed first, then the left end. *)
Definition Trim (s cutset : string) : string :=
  TrimLeft (TrimRight s cutset) cutset.

(** [c < utf8.RuneSelf]. *)
Definition isASCIIByte (c : ascii) : bool := (N_of_ascii c <? 128)%N.

Fixpoint isASCII (s : string) : bool :=
  match s with
  | EmptyString => true
  | String c s' => isASCIIByte c && isASCII s'
  end.

(** [if 'A' <= c && c <= 'Z' { c += 'a' - 'A' }]. *)
Definition lowerByte (c : ascii) : ascii :=
  let n := N_of_ascii c in
  if ((65 <=? n) && (n <=? 90))%N then ascii_of_N (n + 32) else c.

Fixpoint lowerASCII (s : string) : string :=
  match s with
  | EmptyString => EmptyString
  | String c s' => String (lowerByte c) (lowerASCII s')
  end.

Section ToLower.
(** [strings.Map(unicode.ToLower, s)], the path [ToLower] takes for a
    string with a byte outside ASCII; it rests on the Unicode case
    tables of package [unicode]. *)
Variable unicodeToLower : string -> string.

(** [strings.ToLower(s)]. *)
Definition ToLower (s : string) : string :=
  if isASCII s then lowerASCII s else unicodeToLower s.
End ToLower.

End strings.

(** ** Go standard library: [net/http.Header] *)

Abbreviation Header := (gmap string (list string)).

Module http.

(** [h.Get(key)]: the first value stored under [key], or [""].  Every key
    [cors.go] passes is already in canonical MIME form, so
    [CanonicalMIMEHeaderKey] leaves it as it is. *)
Definition Get (h : Header) (key : string) : string :=
  match h !! key with
  | Some (v :: _) => v
  | _ => EmptyString
  end.

(** [h.Add(key, value)]: appends to the values stored under [key]. *)
Definition Add (h : Header) (key value : string) : Header :=
  <[key := default [] (h !! key) ++ [value]]> h.

(** [h.Set(key, value)]: replaces the values stored under [key]. *)
Definition Set_ (h : Header) (key value : string) : Header :=
  <[key := [value]]> h.

(** The part of [*http.Request] the middleware reads. *)
Record Request := { Method : string; ReqHeader : Header }.

End http.

(** ** baa *)

Module baa.

(** The part of [*baa.Context] the middleware uses: the request and the
    header map of the response. *)
Record Context := { Req : http.Request; Resp : Header }.

(** How a handler leaves the chain: [c.Next()] runs the handlers after it,
    [c.Break()] ends the chain without running them. *)
Inductive Chain := Next | Break.

(** What a handler did: how it left the chain, and the header map of the
    response at that point. *)
Record Result := { chain : Chain; header : Header }.

Definition HandlerFunc := Context -> Result.

End baa.

(** ** Package [cors] *)

Definition AllowOriginKey : string := "Access-Control-Allow-Origin".
Definition AllowCredentialsKey : string := "Access-Control-Allow-Credentials".
Definition AllowHeadersKey : string := "Access-Control-Allow-Headers".
Definition AllowMethodsKey : string := "Access-Control-Allow-Methods".
Definition MaxAgeKey : string := "Access-Control-Max-Age".

Definition OriginKey : string := "Origin".
Definition RequestMethodKey : string := "Access-Control-Request-Method".
Definition RequestHeadersKey : string := "Access-Control-Request-Headers".
Definition ExposeHeadersKey : string := "Access-Control-Expose-Headers".

Definition optionsMethod : string := "OPTIONS".

(** The header [Cors] adds to every response. *)
Definition VaryKey : string := "Vary".

(** The cut set of [strings.Trim(header, " \t\r\n")]. *)
Definition trimCutset : string :=
  String " " (String "009" (String "013" (String "010" EmptyString))).

(** [type Config struct]: the exported fields and the unexported ones
    [prepare] derives from them.  [MaxAge] is a [time.Duration], a count of
    nanoseconds. *)
Record Config := {
  ValidateHeaders : bool;
  Origins : string;
  origins : list string;
  RequestHeaders : string;
  requestHeaders : list string;
  ExposedHeaders : string;
  Methods : string;
  methods : list string;
  MaxAge : Z;
  maxAge : string;
  Credentials : bool;
  credentials : string
}.

(** [fmt.Sprintf("%t", b)]. *)
Definition Sprintf_t (b : bool) : string := if b then "true" else "false".

(** [func matchOrigin(origin string, config Config) bool]. *)
Definition matchOrigin (origin : string) (config : Config) : bool :=
  existsb (fun value => String.eqb value origin) (origins config).

(** [func validateRequestMethod(requestMethod string, config Config) bool]. *)
Definition validateRequestMethod (requestMethod : string) (config : Config) : bool :=
  if negb (ValidateHeaders config) then true
  else if negb (String.eqb requestMethod "")
       then existsb (fun value => String.eqb value requestMethod) (methods config)
       else false.

(** [func handleRequest(c *baa.Context, config Config) bool], on the header
    map of the response. *)
Definition handleRequest (config : Config) (resp : Header) : bool * Header :=
  let resp :=
    if negb (String.eqb (ExposedHeaders config) "")
    then http.Set_ resp ExposeHeadersKey (ExposedHeaders config)
    else resp in
  (true, resp).

(** ** Sample configurations and requests *)

Module Samples.

(** Stand-ins for the two library functions [Cors] is parameterised by, to
    run the model on the requests below: they matter only for header names
    outside ASCII and for the text of [Access-Control-Max-Age]. *)
Definition lowerStandIn (s : string) : string := s.
Definition secondsStandIn (d : Z) : string :=
  if (d =? 0)%Z then "0" else "60".

(** The default configuration of the package comment. *)
Definition config0 : Config :=
  {| ValidateHeaders := false; Origins := "*"; origins := [];
     RequestHeaders := "Origin, Authorization, Content-Type"; requestHeaders := [];
     ExposedHeaders := ""; Methods := "GET, PUT, POST, DELETE"; methods := [];
     MaxAge := 60000000000; maxAge := ""; Credentials := true; credentials := "" |}.

(** Strict validation, two origins, no credentials, no max age. *)
Definition strictConfig : Config :=
  {| ValidateHeaders := true; Origins := "https://a.com, https://b.com"; origins := [];
     RequestHeaders := "Origin, Authorization, Content-Type"; requestHeaders := [];
     ExposedHeaders := "X-Total"; Methods := "GET, POST"; methods := [];
     MaxAge := 0; maxAge := ""; Credentials := false; credentials := "" |}.

(** A method list written with two spaces after the comma. *)
Definition spacedConfig : Config :=
  {| ValidateHeaders := true; Origins := "https://a.com"; origins := [];
     RequestHeaders := "Content-Type"; requestHeaders := [];
     ExposedHeaders := ""; Methods := "GET,  PUT"; methods := [];
     MaxAge := 0; maxAge := ""; Credentials := false; credentials := "" |}.

(** A request with the given method and headers, on a response that has no
    header yet. *)
Definition request (method : string) (hdrs : list (string * list string)) : baa.Context :=
  {| baa.Req := {| http.Method := method; http.ReqHeader := list_to_map hdrs |};
     baa.Resp := ∅ |}.

Definition getFrom (origin : string) : baa.Context :=
  request "GET" [(OriginKey, [origin])].

Definition getWithoutOrigin : baa.Context := request "GET" [].

(** A preflight that names the method it asks for and no header. *)
Definition preflightFrom (origin method : string) : baa.Context :=
  request "OPTIONS" [(OriginKey, [origin]); (RequestMethodKey, [method])].

(** An [OPTIONS] request without the probe header. *)
Definition bareOptionsFrom (origin : string) : baa.Context :=
  request "OPTIONS" [(OriginKey, [origin])].

End Samples.

Section Cors.

(** [strings.Map(unicode.ToLower, s)], see [strings.ToLower]. *)
Variable unicodeToLower : string -> string.

(** [fmt.Sprintf("%.f", d.Seconds())] for a duration [d] in nanoseconds:
    a floating-point conversion and its rounded decimal rendering. *)
Variable formatSeconds : Z -> string.

Abbreviation ToLower := (strings.ToLower unicodeToLower).

(** [func (config *Config) prepare()]. *)
Definition prepare (config : Config) : Config :=
  {| ValidateHeaders := ValidateHeaders config;
     Origins := Origins config;
     origins := strings.Split (Origins config) ", ";
     RequestHeaders := RequestHeaders config;
     requestHeaders := map ToLower (strings.Split (RequestHeaders config) ", ");
     ExposedHeaders := ExposedHeaders config;
     Methods := Methods config;
     methods := strings.Split (Methods config) ", ";
     MaxAge := MaxAge config;
     maxAge := formatSeconds (MaxAge config);
     Credentials := Credentials config;
     credentials := Sprintf_t (Credentials config) |}.

(** [func validateRequestHeaders(requestHeaders string, config Config) bool]. *)
Definition validateRequestHeaders (rh : string) (config : Config) : bool :=
  if negb (ValidateHeaders config) then true
  else
    let headers := strings.Split rh "," in
    forallb
      (fun header =>
         let header := ToLower (strings.Trim header trimCutset) in
         existsb (fun value => String.eqb value header) (requestHeaders config))
      headers.

(** [func handlePreflight(c *baa.Context, config Config, requestMethod string) bool],
    on the request and the header map of the response. *)
Definition handlePreflight (req : http.Request) (config : Config)
    (requestMethod : string) (resp : Header) : bool * Header :=
  if negb (validateRequestMethod requestMethod config) then (false, resp)
  else if validateRequestHeaders (http.Get (http.ReqHeader req) RequestHeadersKey) config
  then
    let resp := http.Set_ resp AllowMethodsKey (Methods config) in
    let resp := http.Set_ resp AllowHeadersKey (RequestHeaders config) in
    let resp :=
      if negb (String.eqb (maxAge config) "0")
      then http.Set_ resp MaxAgeKey (maxAge config)
      else resp in
    (true, resp)
  else (false, resp).

(** The closure [Cors] returns ([func(c *baa.Context)]), with the two
    variables it captures. *)
Definition middleware (forceOriginMatch : bool) (config : Config)
    : baa.HandlerFunc := fun c =>
  let req := baa.Req c in
  let currentOrigin := http.Get (http.ReqHeader req) OriginKey in
  let resp := http.Add (baa.Resp c) VaryKey OriginKey in
  if String.eqb currentOrigin "" then
    {| baa.chain := baa.Next; baa.header := resp |}
  else
    let originMatch :=
      if negb forceOriginMatch then matchOrigin currentOrigin config else false in
    if negb (forceOriginMatch || originMatch) then
      {| baa.chain := baa.Break; baa.header := resp |}
    else
      let '(valid, preflight, resp) :=
        if String.eqb (http.Method req) optionsMethod then
          let requestMethod := http.Get (http.ReqHeader req) RequestMethodKey in
          if negb (String.eqb requestMethod "") then
            let '(valid, resp) := handlePreflight req config requestMethod resp in
            (valid, true, resp)
          else (false, false, resp)
        else (false, false, resp) in
      if preflight then
        {| baa.chain := baa.Break; baa.header := resp |}
      else
        let '(valid, resp) := handleRequest config resp in
        if negb valid then
          {| baa.chain := baa.Break; baa.header := resp |}
        else
          let resp :=
            if Credentials config then
              let resp := http.Set_ resp AllowCredentialsKey (credentials config) in
              http.Set_ resp AllowOriginKey currentOrigin
            else if forceOriginMatch then
              http.Set_ resp AllowOriginKey "*"
            else
              http.Set_ resp AllowOriginKey currentOrigin in
          {| baa.chain := baa.Next; baa.header := resp |}.

(** What a call of [Cors] gives: a panic with its message, or the handler. *)
Inductive Construction :=
| Panic (msg : string)
| Handler (h : baa.HandlerFunc).

(** [func Cors(config Config) baa.HandlerFunc]. *)
Definition Cors (config : Config) : Construction :=
  if String.eqb (Origins config) "" then
    Panic "You must set at least a single valid origin. If you don't want CORS, to apply, simply remove the middleware."
  else
    let forceOriginMatch := String.eqb (Origins config) "*" in
    Handler (middleware forceOriginMatch (prepare config)).

(** *** Conditions the properties below are stated with *)

(** The value [currentOrigin] of line 118. *)
Definition originOf (c : baa.Context) : string :=
  http.Get (http.ReqHeader (baa.Req c)) OriginKey.

(** The value [requestMethod] of line 144. *)
Definition probeOf (c : baa.Context) : string :=
  http.Get (http.ReqHeader (baa.Req c)) RequestMethodKey.

(** The condition under which line 146 sets [preflight = true]. *)
Definition Preflight (c : baa.Context) : Prop :=
  http.Method (baa.Req c) = optionsMethod /\ probeOf c <> "".

(** The condition under which line 135 lets the request pass, read on the
    configuration [Cors] was called with. *)
Definition OriginPasses (config : Config) (c : baa.Context) : Prop :=
  Origins config = "*" \/ In (originOf c) (strings.Split (Origins config) ", ").

(** The response header map once line 119 has run and nothing else. *)
Definition varyOnly (c : baa.Context) : Header :=
  http.Add (baa.Resp c) VaryKey OriginKey.

(** A request turned away: the chain is ended and the response carries
    nothing of the middleware but [Vary: Origin]. *)
Definition Rejected (c : baa.Context) (r : baa.Result) : Prop :=
  baa.chain r = baa.Break /\ baa.header r = varyOnly c.

(** ** Facts about the [strings] functions *)

Lemma eqb_empty_false (s : string) : s <> "" -> String.eqb s "" = false.
Proof. intros Hne. now apply String.eqb_neq. Qed.

Lemma HasPrefix_trans (s t p : string) :
  strings.HasPrefix t p = true -> strings.HasPrefix s t = true ->
  strings.HasPrefix s p = true.
Proof.
  revert s t. induction p as [|a p IH]; intros s t Htp Hst.
  - now destruct s.
  - destruct t as [|b t]; [discriminate|].
    destruct s as [|c s]; [discriminate|].
    simpl in *.
    apply andb_true_iff in Htp as [Hba Htp].
    apply andb_true_iff in Hst as [Hcb Hst].
    apply Ascii.eqb_eq in Hba, Hcb. subst.
    rewrite Ascii.eqb_refl. simpl. eauto.
Qed.

Lemma HasPrefix_slice (s p : string) :
  strings.HasPrefix s p = true ->
  s = p +:+ strings.sliceFrom (String.length p) s /\ String.length p <= String.length s.
Proof.
  revert s. induction p as [|a p IH]; intros s Hp.
  - simpl. split; [reflexivity | lia].
  - destruct s as [|c s]; [discriminate|].
    simpl in Hp. apply andb_true_iff in Hp as [Hca Hp].
    apply Ascii.eqb_eq in Hca. subst.
    destruct (IH _ Hp) as [Heq Hlen].
    split; [| simpl; lia].
    change (String a s = String a (p +:+ strings.sliceFrom (String.length p) s)).
    now rewrite <- Heq.
Qed.

Lemma genSplit_nonempty (sep : string) (k : nat) (s : string) :
  strings.genSplit sep k s <> [].
Proof.
  revert k. induction s as [|c s IH]; intros k; cbn [strings.genSplit]; [discriminate|].
  destruct k as [|k]; [|apply IH].
  destruct (strings.HasPrefix (String c s) sep); [discriminate|].
  destruct (strings.genSplit sep 0 s); discriminate.
Qed.

Lemma Join_cons (x : string) (rest : list string) (sep : string) :
  rest <> [] -> strings.Join (x :: rest) sep = x +:+ sep +:+ strings.Join rest sep.
Proof. destruct rest; [congruence | reflexivity]. Qed.

Lemma Join_head (c : ascii) (tok : string) (rest : list string) (sep : string) :
  strings.Join (String c tok :: rest) sep = String c (strings.Join (tok :: rest) sep).
Proof. destruct rest; reflexivity. Qed.

(** Joining the tokens of a split with the separator gives the string back:
    [genSplit] drops nothing but the separators and keeps the order. *)
Lemma genSplit_Join (sep : string) (k : nat) (s : string) :
  sep <> "" -> k <= String.length s ->
  strings.Join (strings.genSplit sep k s) sep = strings.sliceFrom k s.
Proof.
  intros Hsep. revert k. induction s as [|c s IH]; intros k Hk.
  - destruct k as [|k]; [reflexivity | simpl in Hk; lia].
  - destruct k as [|k].
    + simpl strings.sliceFrom.
      cbn [strings.genSplit].
      destruct (strings.HasPrefix (String c s) sep) eqn:Hp.
      * rewrite Join_cons by apply genSplit_nonempty.
        destruct (HasPrefix_slice _ _ Hp) as [Heq Hlen].
        destruct sep as [|a sep]; [congruence|].
        replace (String.length (String a sep) - 1) with (String.length sep)
          by (simpl; lia).
        rewrite IH by (simpl in Hlen; lia).
        etransitivity; [|symmetry; exact Heq]. reflexivity.
      * pose proof (genSplit_nonempty sep 0 s) as Hne.
        specialize (IH 0 ltac:(lia)). simpl in IH.
        destruct (strings.genSplit sep 0 s) as [|tok rest]; [congruence|].
        rewrite Join_head. now rewrite IH.
    + simpl. apply IH. simpl in Hk. lia.
Qed.

Lemma Split_Join (s sep : string) :
  sep <> "" -> strings.Join (strings.Split s sep) sep = s.
Proof. intros Hsep. unfold strings.Split. now rewrite genSplit_Join by (auto; lia). Qed.

(** The first token of a split is a prefix of the string. *)
Lemma genSplit_head_prefix (sep s : string) :
  match strings.genSplit sep 0 s with
  | tok :: _ => strings.HasPrefix s tok = true
  | [] => False
  end.
Proof.
  induction s as [|c s IH]; [reflexivity|].
  cbn [strings.genSplit].
  destruct (strings.HasPrefix (String c s) sep); [reflexivity|].
  destruct (strings.genSplit sep 0 s) as [|tok rest]; [contradiction|].
  simpl. now rewrite Ascii.eqb_refl.
Qed.

(** No token of a split contains the separator. *)
Lemma genSplit_no_sep (sep : string) (k : nat) (s tok : string) :
  sep <> "" -> In tok (strings.genSplit sep k s) -> strings.Contains tok sep = false.
Proof.
  intros Hsep. revert k tok. induction s as [|c s IH]; intros k tok Hin.
  - destruct Hin as [<-|[]]. destruct sep; [congruence | reflexivity].
  - destruct k as [|k]; [|exact (IH _ _ Hin)].
    cbn [strings.genSplit] in Hin.
    destruct (strings.HasPrefix (String c s) sep) eqn:Hp.
    + destruct Hin as [<-|Hin]; [|exact (IH _ _ Hin)].
      destruct sep; [congruence | reflexivity].
    + pose proof (genSplit_head_prefix sep s) as Hhead.
      destruct (strings.genSplit sep 0 s) as [|t rest] eqn:Hs; [contradiction|].
      destruct Hin as [<-|Hin]; [|apply (IH 0); rewrite Hs; now right].
      cbn [strings.Contains].
      rewrite (IH 0 t) by (rewrite Hs; now left).
      rewrite orb_false_r.
      destruct (strings.HasPrefix (String c t) sep) eqn:Hpt; [|reflexivity].
      rewrite <- Hp. symmetry.
      apply (HasPrefix_trans _ (String c t)); [exact Hpt|].
      simpl. now rewrite Ascii.eqb_refl.
Qed.

Lemma existsb_eqb_In (x : string) (l : list string) :
  existsb (fun value => String.eqb value x) l = true <-> In x l.
Proof.
  rewrite existsb_exists. split.
  - intros (y & Hy & Heq). apply String.eqb_eq in Heq. now subst.
  - intros Hin. exists x. split; [assumption | apply String.eqb_refl].
Qed.

Lemma existsb_eqb_not_In (x : string) (l : list string) :
  existsb (fun value => String.eqb value x) l = false <-> ~ In x l.
Proof.
  rewrite <- existsb_eqb_In. destruct (existsb _ l); split; congruence.
Qed.

(** ** The four ways out of the handler *)

Lemma Cors_Handler_inv (config : Config) (h : baa.HandlerFunc) :
  Cors config = Handler h ->
  Origins config <> "" /\
  h = middleware (String.eqb (Origins config) "*") (prepare config).
Proof.
  unfold Cors. destruct (String.eqb (Origins config) "") eqn:He; [discriminate|].
  intros [= <-]. split; [now apply String.eqb_neq | reflexivity].
Qed.

Lemma matchOrigin_In (origin : string) (config : Config) :
  matchOrigin origin config = true <-> In origin (origins config).
Proof. apply existsb_eqb_In. Qed.

(** Line 135 on the prepared configuration is the condition [OriginPasses]. *)
Lemma OriginPasses_ok (config : Config) (c : baa.Context) :
  OriginPasses config c <->
  String.eqb (Origins config) "*" || matchOrigin (originOf c) (prepare config) = true.
Proof.
  unfold OriginPasses. rewrite orb_true_iff, matchOrigin_In, String.eqb_eq. reflexivity.
Qed.

Lemma Preflight_dec (c : baa.Context) : Preflight c \/ ~ Preflight c.
Proof.
  unfold Preflight.
  destruct (String.eqb_spec (http.Method (baa.Req c)) optionsMethod) as [Hm|Hm];
    destruct (String.eqb_spec (probeOf c) "") as [Hp|Hp]; tauto.
Qed.

(** Lines 124-127. *)
Lemma middleware_no_origin (force : bool) (config : Config) (c : baa.Context) :
  originOf c = "" ->
  middleware force config c = {| baa.chain := baa.Next; baa.header := varyOnly c |}.
Proof.
  intros Ho. unfold middleware. fold (originOf c). now rewrite Ho.
Qed.

(** Lines 135-138. *)
Lemma middleware_reject (force : bool) (config : Config) (c : baa.Context) :
  originOf c <> "" ->
  force || matchOrigin (originOf c) config = false ->
  middleware force config c = {| baa.chain := baa.Break; baa.header := varyOnly c |}.
Proof.
  intros Ho Hok. unfold middleware. fold (originOf c).
  rewrite (eqb_empty_false _ Ho).
  apply orb_false_iff in Hok as [-> ->]. reflexivity.
Qed.

(** Lines 143-156. *)
Lemma middleware_preflight (force : bool) (config : Config) (c : baa.Context) :
  originOf c <> "" ->
  force || matchOrigin (originOf c) config = true ->
  Preflight c ->
  middleware force config c =
  {| baa.chain := baa.Break;
     baa.header := snd (handlePreflight (baa.Req c) config (probeOf c) (varyOnly c)) |}.
Proof.
  intros Ho Hok [Hm Hp]. unfold middleware. fold (originOf c) (probeOf c) (varyOnly c).
  rewrite (eqb_empty_false _ Ho).
  replace (force || (if negb force then matchOrigin (originOf c) config else false))
    with true by (destruct force; simpl in *; congruence).
  cbn [negb]. rewrite Hm, String.eqb_refl, (eqb_empty_false _ Hp). cbn [negb].
  now destruct (handlePreflight _ _ _ _).
Qed.

(** Lines 157-174. *)
Lemma middleware_simple (force : bool) (config : Config) (c : baa.Context) :
  originOf c <> "" ->
  force || matchOrigin (originOf c) config = true ->
  ~ Preflight c ->
  middleware force config c =
  {| baa.chain := baa.Next;
     baa.header :=
       let resp := snd (handleRequest config (varyOnly c)) in
       if Credentials config then
         http.Set_ (http.Set_ resp AllowCredentialsKey (credentials config))
           AllowOriginKey (originOf c)
       else if force then http.Set_ resp AllowOriginKey "*"
       else http.Set_ resp AllowOriginKey (originOf c) |}.
Proof.
  intros Ho Hok Hnp. unfold middleware. fold (originOf c) (probeOf c) (varyOnly c).
  rewrite (eqb_empty_false _ Ho).
  replace (force || (if negb force then matchOrigin (originOf c) config else false))
    with true by (destruct force; simpl in *; congruence).
  cbn [negb].
  assert (Hcls :
    (if String.eqb (http.Method (baa.Req c)) optionsMethod
     then if negb (String.eqb (probeOf c) "")
          then let '(valid, resp) :=
                 handlePreflight (baa.Req c) config (probeOf c) (varyOnly c) in
               (valid, true, resp)
          else (false, false, varyOnly c)
     else (false, false, varyOnly c)) = (false, false, varyOnly c)).
  { destruct (String.eqb_spec (http.Method (baa.Req c)) optionsMethod) as [Hm|Hm];
      [|reflexivity].
    destruct (String.eqb_spec (probeOf c) "") as [Hp|Hp]; [reflexivity|].
    exfalso. apply Hnp. now split. }
  rewrite Hcls. reflexivity.
Qed.

(** What [http.Add] and [http.Set_] leave under a key. *)
Lemma Add_lookup (h : Header) (key value : string) :
  http.Add h key value !! key = Some (default [] (h !! key) ++ [value]).
Proof. unfold http.Add. apply lookup_insert_eq. Qed.

Lemma Add_lookup_ne (h : Header) (key value key' : string) :
  key <> key' -> http.Add h key value !! key' = h !! key'.
Proof. intros Hne. unfold http.Add. now apply lookup_insert_ne. Qed.

Lemma Set_lookup (h : Header) (key value : string) :
  http.Set_ h key value !! key = Some [value].
Proof. unfold http.Set_. apply lookup_insert_eq. Qed.

Lemma Set_lookup_ne (h : Header) (key value key' : string) :
  key <> key' -> http.Set_ h key value !! key' = h !! key'.
Proof. intros Hne. unfold http.Set_. now apply lookup_insert_ne. Qed.

(** [handlePreflight] writes under three keys only. *)
Lemma handlePreflight_lookup_other
    (req : http.Request) (config : Config) (rm : string) (resp : Header) (key : string) :
  key <> AllowMethodsKey -> key <> AllowHeadersKey -> key <> MaxAgeKey ->
  snd (handlePreflight req config rm resp) !! key = resp !! key.
Proof.
  intros H1 H2 H3. unfold handlePreflight.
  destruct (negb (validateRequestMethod rm config)); [reflexivity|].
  destruct (validateRequestHeaders _ config); [|reflexivity].
  cbn [snd].
  destruct (negb (String.eqb (maxAge config) "0"));
    rewrite ?Set_lookup_ne by congruence; reflexivity.
Qed.

(** The outcome of [handlePreflight] in terms of the two validations. *)
Lemma handlePreflight_valid
    (req : http.Request) (config : Config) (rm : string) (resp : Header) :
  validateRequestMethod rm config
    && validateRequestHeaders (http.Get (http.ReqHeader req) RequestHeadersKey) config = true ->
  handlePreflight req config rm resp =
  (true,
   let resp := http.Set_ (http.Set_ resp AllowMethodsKey (Methods config))
                 AllowHeadersKey (RequestHeaders config) in
   if String.eqb (maxAge config) "0" then resp
   else http.Set_ resp MaxAgeKey (maxAge config)).
Proof.
  intros Hv. apply andb_true_iff in Hv as [Hm Hh]. unfold handlePreflight.
  rewrite Hm, Hh. cbn [negb]. now destruct (String.eqb (maxAge config) "0").
Qed.

Lemma handlePreflight_invalid
    (req : http.Request) (config : Config) (rm : string) (resp : Header) :
  validateRequestMethod rm config
    && validateRequestHeaders (http.Get (http.ReqHeader req) RequestHeadersKey) config = false ->
  handlePreflight req config rm resp = (false, resp).
Proof.
  intros Hv. unfold handlePreflight.
  destruct (validateRequestMethod rm config); [|reflexivity].
  simpl in Hv. now rewrite Hv.
Qed.

(** ** Properties of the middleware *)

Lemma wildcard_force (config : Config) :
  Origins config = "*" -> String.eqb (Origins config) "*" = true.
Proof. intros ->. reflexivity. Qed.

Lemma not_wildcard_force (config : Config) :
  Origins config <> "*" -> String.eqb (Origins config) "*" = false.
Proof. intros Hne. now apply String.eqb_neq. Qed.

Lemma not_In_reject (config : Config) (c : baa.Context) :
  Origins config <> "*" ->
  ~ In (originOf c) (strings.Split (Origins config) ", ") ->
  String.eqb (Origins config) "*" || matchOrigin (originOf c) (prepare config) = false.
Proof.
  intros Hw Hin. rewrite (not_wildcard_force _ Hw). cbn [orb].
  now apply existsb_eqb_not_In.
Qed.

(** C1 (as amended).  For a request with a non-empty [Origin] under a policy
    that is not the wildcard: an [Origin] that equals none of the configured
    tokens is rejected (chain ended, nothing but [Vary: Origin]); an [Origin]
    that equals one is let through, to [handlePreflight] when the request is
    a preflight and to the next handler when it is not; so for the requests
    that are not preflights, rejection holds exactly when the [Origin] equals
    no token.  Under the wildcard every origin is let through. *)
Theorem origin_admission (config : Config) (h : baa.HandlerFunc) (c : baa.Context) :
  Cors config = Handler h ->
  originOf c <> "" ->
  (Origins config <> "*" ->
     (~ In (originOf c) (strings.Split (Origins config) ", ") -> Rejected c (h c)) /\
     (In (originOf c) (strings.Split (Origins config) ", ") ->
        (Preflight c ->
           h c = {| baa.chain := baa.Break;
                    baa.header := snd (handlePreflight (baa.Req c) (prepare config)
                                         (probeOf c) (varyOnly c)) |}) /\
        (~ Preflight c -> baa.chain (h c) = baa.Next)) /\
     (~ Preflight c ->
        (Rejected c (h c) <-> ~ In (originOf c) (strings.Split (Origins config) ", ")))) /\
  (Origins config = "*" ->
     (Preflight c ->
        h c = {| baa.chain := baa.Break;
                 baa.header := snd (handlePreflight (baa.Req c) (prepare config)
                                      (probeOf c) (varyOnly c)) |}) /\
     (~ Preflight c -> baa.chain (h c) = baa.Next)).
Proof.
  intros Hc Ho. destruct (Cors_Handler_inv _ _ Hc) as [_ ->].
  assert (Hadm : OriginPasses config c ->
    (Preflight c ->
       middleware (String.eqb (Origins config) "*") (prepare config) c =
       {| baa.chain := baa.Break;
          baa.header := snd (handlePreflight (baa.Req c) (prepare config)
                               (probeOf c) (varyOnly c)) |}) /\
    (~ Preflight c ->
       baa.chain (middleware (String.eqb (Origins config) "*") (prepare config) c)
       = baa.Next)).
  { intros Ha. apply OriginPasses_ok in Ha. split; intros Hp.
    - now apply middleware_preflight.
    - now rewrite middleware_simple. }
  assert (Hrej : Origins config <> "*" ->
    ~ In (originOf c) (strings.Split (Origins config) ", ") ->
    Rejected c (middleware (String.eqb (Origins config) "*") (prepare config) c)).
  { intros Hw Hin. rewrite middleware_reject by auto using not_In_reject.
    split; reflexivity. }
  split.
  - intros Hw. split; [now apply Hrej|]. split.
    + intros Hin. apply Hadm. now right.
    + intros Hnp. split; [|now apply Hrej].
      intros [Hbreak _] Hin.
      destruct (Hadm (or_intror Hin)) as [_ Hnext].
      rewrite (Hnext Hnp) in Hbreak. discriminate.
  - intros Hw. apply Hadm. now left.
Qed.

(** C2.  An admitted preflight always ends the chain.  When both validations
    pass the handler sets [Access-Control-Allow-Methods] to [config.Methods],
    [Access-Control-Allow-Headers] to [config.RequestHeaders] and, unless
    [config.maxAge] is ["0"], [Access-Control-Max-Age] to [config.maxAge], and
    nothing else; when one of them fails it sets nothing.  In both cases
    [Access-Control-Allow-Origin] and [Access-Control-Allow-Credentials] are
    left as they were. *)
Theorem preflight_response (config : Config) (h : baa.HandlerFunc) (c : baa.Context) :
  Cors config = Handler h ->
  originOf c <> "" ->
  OriginPasses config c ->
  Preflight c ->
  let cfg := prepare config in
  let valid :=
    validateRequestMethod (probeOf c) cfg
    && validateRequestHeaders
         (http.Get (http.ReqHeader (baa.Req c)) RequestHeadersKey) cfg in
  baa.chain (h c) = baa.Break /\
  (valid = true ->
     baa.header (h c) =
     let resp := http.Set_ (http.Set_ (varyOnly c) AllowMethodsKey (Methods config))
                   AllowHeadersKey (RequestHeaders config) in
     if String.eqb (maxAge cfg) "0" then resp
     else http.Set_ resp MaxAgeKey (maxAge cfg)) /\
  (valid = false -> baa.header (h c) = varyOnly c) /\
  baa.header (h c) !! AllowOriginKey = baa.Resp c !! AllowOriginKey /\
  baa.header (h c) !! AllowCredentialsKey = baa.Resp c !! AllowCredentialsKey.
Proof.
  intros Hc Ho Ha Hp cfg valid. destruct (Cors_Handler_inv _ _ Hc) as [_ ->].
  apply OriginPasses_ok in Ha. rewrite (middleware_preflight _ _ _ Ho Ha Hp).
  cbn [baa.chain baa.header]. fold cfg.
  split; [reflexivity|]. split; [|split; [|split]].
  - intros Hv. now rewrite handlePreflight_valid.
  - intros Hv. now rewrite handlePreflight_invalid.
  - rewrite handlePreflight_lookup_other by discriminate.
    now apply Add_lookup_ne.
  - rewrite handlePreflight_lookup_other by discriminate.
    now apply Add_lookup_ne.
Qed.

Lemma handleRequest_lookup_other (config : Config) (resp : Header) (key : string) :
  key <> ExposeHeadersKey ->
  snd (handleRequest config resp) !! key = resp !! key.
Proof.
  intros Hk. unfold handleRequest. cbn [snd].
  destruct (negb (String.eqb (ExposedHeaders config) "")); [|reflexivity].
  now apply Set_lookup_ne.
Qed.

(** Whatever the request, the handler leaves under [Vary] what line 119
    put there. *)
Lemma middleware_Vary (force : bool) (config : Config) (c : baa.Context) :
  baa.header (middleware force config c) !! VaryKey
  = Some (default [] (baa.Resp c !! VaryKey) ++ [OriginKey]).
Proof.
  destruct (String.eqb_spec (originOf c) "") as [Ho|Ho].
  { rewrite middleware_no_origin by assumption. apply Add_lookup. }
  destruct (force || matchOrigin (originOf c) config) eqn:Hok.
  2:{ rewrite middleware_reject by assumption. apply Add_lookup. }
  destruct (Preflight_dec c) as [Hp|Hp].
  - rewrite middleware_preflight by assumption. cbn [baa.header].
    rewrite handlePreflight_lookup_other by discriminate. apply Add_lookup.
  - rewrite middleware_simple by assumption. cbn [baa.header].
    destruct (Credentials config); [|destruct force];
      rewrite ?Set_lookup_ne by discriminate;
      (rewrite handleRequest_lookup_other by discriminate); apply Add_lookup.
Qed.

(** C3.  A request without an [Origin] value always goes on to the next
    handler, and the only thing the middleware did to the response is adding
    [Vary: Origin]; and for every request, with or without [Origin], the
    response ends with [Origin] appended to its [Vary] values. *)
Theorem no_origin_continues (config : Config) (h : baa.HandlerFunc) (c : baa.Context) :
  Cors config = Handler h ->
  (originOf c = "" ->
     h c = {| baa.chain := baa.Next;
              baa.header := http.Add (baa.Resp c) VaryKey OriginKey |}) /\
  baa.header (h c) !! VaryKey
  = Some (default [] (baa.Resp c !! VaryKey) ++ [OriginKey]).
Proof.
  intros Hc. destruct (Cors_Handler_inv _ _ Hc) as [_ ->]. split.
  - intros Ho. now apply middleware_no_origin.
  - apply middleware_Vary.
Qed.

(** X12.  What lines 164-172 write for an admitted request that is not a
    preflight, which then goes on to the next handler.  With credentials
    enabled, [Access-Control-Allow-Credentials] is [config.credentials]
    (["true"]) and [Access-Control-Allow-Origin] is the [Origin] value as the
    request sent it, under the wildcard policy too.  With credentials
    disabled, [Access-Control-Allow-Origin] is ["*"] under the wildcard
    policy and the request's [Origin] value otherwise. *)
Theorem allow_origin_assembly (config : Config) (h : baa.HandlerFunc) (c : baa.Context) :
  Cors config = Handler h ->
  originOf c <> "" ->
  OriginPasses config c ->
  ~ Preflight c ->
  baa.chain (h c) = baa.Next /\
  (Credentials config = true ->
     baa.header (h c) !! AllowCredentialsKey = Some [credentials (prepare config)] /\
     credentials (prepare config) = "true" /\
     baa.header (h c) !! AllowOriginKey = Some [originOf c] /\
     (originOf c <> "*" -> baa.header (h c) !! AllowOriginKey <> Some ["*"])) /\
  (Credentials config = false -> Origins config = "*" ->
     baa.header (h c) !! AllowOriginKey = Some ["*"]) /\
  (Credentials config = false -> Origins config <> "*" ->
     baa.header (h c) !! AllowOriginKey = Some [originOf c]).
Proof.
  intros Hc Ho Ha Hp. destruct (Cors_Handler_inv _ _ Hc) as [_ ->].
  apply OriginPasses_ok in Ha. rewrite (middleware_simple _ _ _ Ho Ha Hp).
  cbn [baa.chain baa.header]. split; [reflexivity|].
  change (Credentials (prepare config)) with (Credentials config).
  split; [|split].
  - intros Hcr. rewrite Hcr. split; [|split; [|split]].
    + rewrite Set_lookup_ne by discriminate. apply Set_lookup.
    + cbn. now rewrite Hcr.
    + apply Set_lookup.
    + intros Hstar. rewrite Set_lookup. congruence.
  - intros Hcr Hw. rewrite Hcr, (wildcard_force _ Hw). apply Set_lookup.
  - intros Hcr Hw. rewrite Hcr, (not_wildcard_force _ Hw). apply Set_lookup.
Qed.

(** C5.  In strict mode a probed method (never empty in a preflight, line
    145) passes exactly when it equals, byte for byte, one of the configured
    method tokens, so [get] fails against [GET]; outside strict mode every
    probed method passes. *)
Theorem method_validation (config : Config) (requestMethod : string) :
  (ValidateHeaders config = true -> requestMethod <> "" ->
     (validateRequestMethod requestMethod (prepare config) = true <->
      In requestMethod (strings.Split (Methods config) ", "))) /\
  (ValidateHeaders config = false ->
     validateRequestMethod requestMethod (prepare config) = true) /\
  (ValidateHeaders config = true -> Methods config = "GET" ->
     validateRequestMethod "get" (prepare config) = false /\
     validateRequestMethod "GET" (prepare config) = true).
Proof.
  unfold validateRequestMethod.
  change (ValidateHeaders (prepare config)) with (ValidateHeaders config).
  change (methods (prepare config)) with (strings.Split (Methods config) ", ").
  split; [|split].
  - intros -> Hne. cbn [negb]. rewrite (eqb_empty_false _ Hne). cbn [negb].
    apply existsb_eqb_In.
  - intros ->. reflexivity.
  - intros -> ->. split; reflexivity.
Qed.

Lemma Get_absent (h : Header) (key : string) : h !! key = None -> http.Get h key = "".
Proof. intros Hk. unfold http.Get. now rewrite Hk. Qed.

(** C7.  An admitted request is handled as a preflight (answered by
    [handlePreflight], chain ended) exactly when its method is [OPTIONS] and
    its [Access-Control-Request-Method] value is not empty; every other
    admitted request, an [OPTIONS] request whose probe header is empty or
    absent among them, is handled as an actual request: it gets its
    [Access-Control-Allow-Origin] and goes on to the next handler. *)
Theorem request_classification (config : Config) (h : baa.HandlerFunc) (c : baa.Context) :
  Cors config = Handler h ->
  originOf c <> "" ->
  OriginPasses config c ->
  (baa.chain (h c) = baa.Break <-> Preflight c) /\
  (Preflight c ->
     h c = {| baa.chain := baa.Break;
              baa.header := snd (handlePreflight (baa.Req c) (prepare config)
                                   (probeOf c) (varyOnly c)) |}) /\
  (~ Preflight c ->
     baa.chain (h c) = baa.Next /\ is_Some (baa.header (h c) !! AllowOriginKey)) /\
  (http.Method (baa.Req c) = optionsMethod ->
     probeOf c = "" \/ http.ReqHeader (baa.Req c) !! RequestMethodKey = None ->
     baa.chain (h c) = baa.Next).
Proof.
  intros Hc Ho Ha. destruct (Cors_Handler_inv _ _ Hc) as [_ ->].
  apply OriginPasses_ok in Ha.
  assert (Hpre : Preflight c ->
    middleware (String.eqb (Origins config) "*") (prepare config) c =
    {| baa.chain := baa.Break;
       baa.header := snd (handlePreflight (baa.Req c) (prepare config)
                            (probeOf c) (varyOnly c)) |}).
  { intros Hp. now apply middleware_preflight. }
  assert (Hsim : ~ Preflight c ->
    baa.chain (middleware (String.eqb (Origins config) "*") (prepare config) c)
    = baa.Next /\
    is_Some (baa.header (middleware (String.eqb (Origins config) "*") (prepare config) c)
             !! AllowOriginKey)).
  { intros Hp. rewrite (middleware_simple _ _ _ Ho Ha Hp). cbn [baa.chain baa.header].
    split; [reflexivity|].
    destruct (Credentials (prepare config));
      [|destruct (String.eqb (Origins config) "*")];
      rewrite Set_lookup; eauto. }
  split; [|split; [assumption|split; [assumption|]]].
  - split.
    + intros Hb. destruct (Preflight_dec c) as [Hp|Hp]; [assumption|].
      destruct (Hsim Hp) as [Hn _]. rewrite Hn in Hb. discriminate.
    + intros Hp. now rewrite (Hpre Hp).
  - intros _ Hempty. apply Hsim. intros [_ Hp]. apply Hp.
    destruct Hempty as [He|He]; [assumption|].
    unfold probeOf. now apply Get_absent.
Qed.

(** C8 (as amended).  [prepare] cuts each of [Origins], [Methods] and
    [RequestHeaders] at the occurrences of [", "], in order and without
    trimming anything: joining the tokens with [", "] gives the configured
    string back, no token contains [", "], and the request-header tokens are
    the lowercased tokens of [RequestHeaders]. *)
Theorem prepare_splits (config : Config) :
  strings.Join (origins (prepare config)) ", " = Origins config /\
  strings.Join (methods (prepare config)) ", " = Methods config /\
  (exists tokens,
     requestHeaders (prepare config) = map ToLower tokens /\
     strings.Join tokens ", " = RequestHeaders config /\
     forall tok, In tok tokens -> strings.Contains tok ", " = false) /\
  (forall tok, In tok (origins (prepare config)) -> strings.Contains tok ", " = false) /\
  (forall tok, In tok (methods (prepare config)) -> strings.Contains tok ", " = false).
Proof.
  cbn [prepare origins methods requestHeaders].
  assert (Hsep : ", " <> "") by discriminate.
  split; [now apply Split_Join|]. split; [now apply Split_Join|].
  split; [|split]; [| intros tok; now apply genSplit_no_sep ..].
  exists (strings.Split (RequestHeaders config) ", ").
  split; [reflexivity|]. split; [now apply Split_Join|].
  intros tok. now apply genSplit_no_sep.
Qed.

(** C9.  [Cors] panics exactly when [Origins] is the empty string; for every
    other [Origins] it returns a handler. *)
Theorem construction_panics_iff_no_origin (config : Config) :
  ((exists msg, Cors config = Panic msg) <-> Origins config = "") /\
  ((exists h, Cors config = Handler h) <-> Origins config <> "").
Proof.
  unfold Cors. destruct (String.eqb_spec (Origins config) "") as [He|He].
  - split; split; try (intros [? [=]]); try congruence; eauto.
  - split; split; try (intros [? [=]]); try congruence; eauto.
Qed.

(** C10.  In strict mode, an admitted preflight whose
    [Access-Control-Request-Headers] value is empty (or absent) has its
    header validation run on the single empty token: it passes exactly when
    the prepared request-header list contains the empty token, as it does
    for an empty [RequestHeaders]; when it does not, the preflight is
    answered with no allow header at all. *)
Theorem empty_request_headers (config : Config) (h : baa.HandlerFunc) (c : baa.Context) :
  Cors config = Handler h ->
  originOf c <> "" ->
  OriginPasses config c ->
  Preflight c ->
  ValidateHeaders config = true ->
  http.Get (http.ReqHeader (baa.Req c)) RequestHeadersKey = "" ->
  strings.Split "" "," = [""] /\
  (validateRequestHeaders "" (prepare config) = true <->
   In "" (requestHeaders (prepare config))) /\
  (~ In "" (requestHeaders (prepare config)) ->
     h c = {| baa.chain := baa.Break; baa.header := varyOnly c |}) /\
  (In "" (requestHeaders (prepare config)) ->
     validateRequestMethod (probeOf c) (prepare config) = true ->
     baa.header (h c) !! AllowHeadersKey = Some [RequestHeaders config] /\
     baa.header (h c) !! AllowMethodsKey = Some [Methods config]) /\
  (RequestHeaders config = "" -> In "" (requestHeaders (prepare config))).
Proof.
  intros Hc Ho Ha Hp Hstrict Hrh. destruct (Cors_Handler_inv _ _ Hc) as [_ ->].
  apply OriginPasses_ok in Ha. rewrite (middleware_preflight _ _ _ Ho Ha Hp).
  assert (Hval : validateRequestHeaders "" (prepare config) = true <->
                 In "" (requestHeaders (prepare config))).
  { unfold validateRequestHeaders.
    change (ValidateHeaders (prepare config)) with (ValidateHeaders config).
    rewrite Hstrict. cbn [negb].
    change (strings.Split "" ",") with [""]. cbn [forallb].
    change (ToLower (strings.Trim "" trimCutset)) with "".
    rewrite andb_true_r. apply existsb_eqb_In. }
  split; [reflexivity|]. split; [exact Hval|]. split; [|split].
  - intros Hnin. f_equal. rewrite handlePreflight_invalid; [reflexivity|].
    rewrite Hrh. destruct (validateRequestHeaders "" (prepare config)) eqn:Hv.
    + exfalso. apply Hnin. now apply Hval.
    + apply andb_false_r.
  - intros Hin Hm. cbn [baa.header].
    rewrite handlePreflight_valid
      by (rewrite Hrh, Hm; cbn [andb]; now apply Hval).
    cbn [snd]. change (Methods (prepare config)) with (Methods config).
    change (RequestHeaders (prepare config)) with (RequestHeaders config).
    destruct (String.eqb (maxAge (prepare config)) "0");
      rewrite ?(Set_lookup_ne _ MaxAgeKey) by discriminate;
      (split; [apply Set_lookup | rewrite Set_lookup_ne by discriminate; apply Set_lookup]).
  - intros He. cbn [prepare requestHeaders]. rewrite He. now left.
Qed.

(** ** Further properties of the handler *)

Lemma OriginPasses_dec (config : Config) (c : baa.Context) :
  OriginPasses config c \/ ~ OriginPasses config c.
Proof.
  rewrite OriginPasses_ok.
  destruct (String.eqb (Origins config) "*" || matchOrigin (originOf c) (prepare config));
    [left | right]; congruence.
Qed.

(** X1.  The handler lets a request go on to the next handler exactly when
    it has no [Origin] value, or its origin passes and it is not a preflight:
    [handleRequest] always answers [true], so the [c.Break()] of lines
    159-162 is never reached. *)
Theorem next_iff (config : Config) (h : baa.HandlerFunc) (c : baa.Context) :
  Cors config = Handler h ->
  (baa.chain (h c) = baa.Next <->
   originOf c = "" \/ (OriginPasses config c /\ ~ Preflight c)).
Proof.
  intros Hc. destruct (Cors_Handler_inv _ _ Hc) as [_ ->].
  destruct (String.eqb_spec (originOf c) "") as [Ho|Ho].
  { rewrite middleware_no_origin by assumption. cbn. tauto. }
  destruct (OriginPasses_dec config c) as [Ha|Ha].
  - pose proof Ha as Hok. apply OriginPasses_ok in Hok.
    destruct (Preflight_dec c) as [Hp|Hp].
    + rewrite middleware_preflight by assumption. cbn.
      split; [discriminate | tauto].
    + rewrite middleware_simple by assumption. cbn. tauto.
  - assert (Hok : String.eqb (Origins config) "*"
                  || matchOrigin (originOf c) (prepare config) = false).
    { destruct (_ || _) eqn:E; [|reflexivity].
      exfalso. apply Ha. now apply OriginPasses_ok. }
    rewrite middleware_reject by assumption. cbn.
    split; [discriminate | tauto].
Qed.

(** X2.  [Access-Control-Expose-Headers] is written for the requests that go
    on with an [Origin] (origin passes, not a preflight) and only when
    [ExposedHeaders] is not empty: it is then [ExposedHeaders]; for every
    other request, and for an empty [ExposedHeaders], the header is left as
    it was. *)
Theorem expose_headers (config : Config) (h : baa.HandlerFunc) (c : baa.Context) :
  Cors config = Handler h ->
  (originOf c <> "" /\ OriginPasses config c /\ ~ Preflight c /\
   ExposedHeaders config <> "" ->
     baa.header (h c) !! ExposeHeadersKey = Some [ExposedHeaders config]) /\
  (originOf c = "" \/ ~ OriginPasses config c \/ Preflight c \/
   ExposedHeaders config = "" ->
     baa.header (h c) !! ExposeHeadersKey = baa.Resp c !! ExposeHeadersKey).
Proof.
  intros Hc. destruct (Cors_Handler_inv _ _ Hc) as [_ ->].
  assert (Hsimple : originOf c <> "" -> OriginPasses config c -> ~ Preflight c ->
    baa.header (middleware (String.eqb (Origins config) "*") (prepare config) c)
      !! ExposeHeadersKey
    = snd (handleRequest (prepare config) (varyOnly c)) !! ExposeHeadersKey).
  { intros Ho Ha Hp. apply OriginPasses_ok in Ha.
    rewrite middleware_simple by assumption. cbn [baa.header].
    destruct (Credentials (prepare config));
      [|destruct (String.eqb (Origins config) "*")];
      rewrite ?Set_lookup_ne by discriminate; reflexivity. }
  split.
  - intros (Ho & Ha & Hp & He). rewrite Hsimple by assumption.
    unfold handleRequest. cbn [snd].
    change (ExposedHeaders (prepare config)) with (ExposedHeaders config).
    rewrite (eqb_empty_false _ He). cbn [negb]. apply Set_lookup.
  - intros Hcase.
    destruct (String.eqb_spec (originOf c) "") as [Ho|Ho].
    { rewrite middleware_no_origin by assumption. now apply Add_lookup_ne. }
    destruct (OriginPasses_dec config c) as [Ha|Ha].
    2:{ assert (Hok : String.eqb (Origins config) "*"
                      || matchOrigin (originOf c) (prepare config) = false).
        { destruct (_ || _) eqn:E; [|reflexivity].
          exfalso. apply Ha. now apply OriginPasses_ok. }
        rewrite middleware_reject by assumption. now apply Add_lookup_ne. }
    destruct (Preflight_dec c) as [Hp|Hp].
    { apply OriginPasses_ok in Ha. rewrite middleware_preflight by assumption.
      cbn [baa.header]. rewrite handlePreflight_lookup_other by discriminate.
      now apply Add_lookup_ne. }
    destruct Hcase as [?|[?|[?|He]]]; try contradiction.
    rewrite Hsimple by assumption. unfold handleRequest. cbn [snd].
    change (ExposedHeaders (prepare config)) with (ExposedHeaders config).
    rewrite He. cbn. now apply Add_lookup_ne.
Qed.

Lemma middleware_lookup_other
    (force : bool) (config : Config) (c : baa.Context) (key : string) :
  ~ In key [VaryKey; AllowOriginKey; AllowCredentialsKey; AllowMethodsKey;
            AllowHeadersKey; MaxAgeKey; ExposeHeadersKey] ->
  baa.header (middleware force config c) !! key = baa.Resp c !! key.
Proof.
  intros Hk. cbn [In] in Hk.
  assert (Hvary : varyOnly c !! key = baa.Resp c !! key)
    by (apply Add_lookup_ne; intros E; apply Hk; subst key; tauto).
  destruct (String.eqb_spec (originOf c) "") as [Ho|Ho].
  { now rewrite middleware_no_origin by assumption. }
  destruct (force || matchOrigin (originOf c) config) eqn:Hok.
  2:{ now rewrite middleware_reject by assumption. }
  destruct (Preflight_dec c) as [Hp|Hp].
  - rewrite middleware_preflight by assumption. cbn [baa.header].
    rewrite handlePreflight_lookup_other by (intros E; apply Hk; subst key; tauto).
    exact Hvary.
  - rewrite middleware_simple by assumption. cbn [baa.header].
    assert (Hreq : snd (handleRequest config (varyOnly c)) !! key = baa.Resp c !! key).
    { rewrite handleRequest_lookup_other by (intros E; apply Hk; subst key; tauto).
      exact Hvary. }
    destruct (Credentials config); [|destruct force];
      rewrite ?Set_lookup_ne by (intros E; apply Hk; subst key; tauto); exact Hreq.
Qed.

(** X3.  The handler writes under seven header names and no other: every
    other header of the response is left as it was. *)
Theorem other_headers_untouched
    (config : Config) (h : baa.HandlerFunc) (c : baa.Context) (key : string) :
  Cors config = Handler h ->
  ~ In key [VaryKey; AllowOriginKey; AllowCredentialsKey; AllowMethodsKey;
            AllowHeadersKey; MaxAgeKey; ExposeHeadersKey] ->
  baa.header (h c) !! key = baa.Resp c !! key.
Proof.
  intros Hc Hk. destruct (Cors_Handler_inv _ _ Hc) as [_ ->].
  now apply middleware_lookup_other.
Qed.

(** X4.  Outside strict mode an admitted preflight is answered with the
    allow headers whatever method and headers it asks for. *)
Theorem lenient_preflight (config : Config) (h : baa.HandlerFunc) (c : baa.Context) :
  Cors config = Handler h ->
  ValidateHeaders config = false ->
  originOf c <> "" ->
  OriginPasses config c ->
  Preflight c ->
  baa.header (h c) !! AllowMethodsKey = Some [Methods config] /\
  baa.header (h c) !! AllowHeadersKey = Some [RequestHeaders config].
Proof.
  intros Hc Hlen Ho Ha Hp. destruct (Cors_Handler_inv _ _ Hc) as [_ ->].
  apply OriginPasses_ok in Ha. rewrite middleware_preflight by assumption.
  cbn [baa.header]. rewrite handlePreflight_valid.
  - cbn [snd]. change (Methods (prepare config)) with (Methods config).
    change (RequestHeaders (prepare config)) with (RequestHeaders config).
    destruct (String.eqb (maxAge (prepare config)) "0");
      rewrite ?(Set_lookup_ne _ MaxAgeKey) by discriminate;
      (split; [rewrite Set_lookup_ne by discriminate|]; apply Set_lookup).
  - unfold validateRequestMethod, validateRequestHeaders.
    change (ValidateHeaders (prepare config)) with (ValidateHeaders config).
    now rewrite Hlen.
Qed.

(** X5.  The handler never answers [Access-Control-Allow-Credentials: false]:
    it leaves the header as it was, or sets it to ["true"]. *)
Theorem credentials_never_false (config : Config) (h : baa.HandlerFunc) (c : baa.Context) :
  Cors config = Handler h ->
  baa.header (h c) !! AllowCredentialsKey = baa.Resp c !! AllowCredentialsKey \/
  baa.header (h c) !! AllowCredentialsKey = Some ["true"].
Proof.
  intros Hc. destruct (Cors_Handler_inv _ _ Hc) as [_ ->].
  destruct (String.eqb_spec (originOf c) "") as [Ho|Ho].
  { left. rewrite middleware_no_origin by assumption. now apply Add_lookup_ne. }
  destruct (String.eqb (Origins config) "*"
            || matchOrigin (originOf c) (prepare config)) eqn:Hok.
  2:{ left. rewrite middleware_reject by assumption. now apply Add_lookup_ne. }
  destruct (Preflight_dec c) as [Hp|Hp].
  - left. rewrite middleware_preflight by assumption. cbn [baa.header].
    rewrite handlePreflight_lookup_other by discriminate. now apply Add_lookup_ne.
  - rewrite middleware_simple by assumption. cbn [baa.header].
    change (Credentials (prepare config)) with (Credentials config).
    change (credentials (prepare config)) with (Sprintf_t (Credentials config)).
    destruct (Credentials config).
    + right. rewrite Set_lookup_ne by discriminate. apply Set_lookup.
    + left. destruct (String.eqb (Origins config) "*");
        rewrite Set_lookup_ne by discriminate;
        (rewrite handleRequest_lookup_other by discriminate);
        now apply Add_lookup_ne.
Qed.

(** X6.  In strict mode the empty method never passes, even against a
    configured list with an empty token (line 221); so with an empty
    [Methods], whose only token is the empty one, no method passes at all. *)
Theorem empty_method_never_passes (config : Config) :
  (ValidateHeaders config = true ->
     validateRequestMethod "" (prepare config) = false) /\
  (ValidateHeaders config = true -> Methods config = "" ->
     forall requestMethod, validateRequestMethod requestMethod (prepare config) = false).
Proof.
  unfold validateRequestMethod.
  change (ValidateHeaders (prepare config)) with (ValidateHeaders config).
  change (methods (prepare config)) with (strings.Split (Methods config) ", ").
  split.
  - intros ->. reflexivity.
  - intros -> -> rm. destruct rm; reflexivity.
Qed.

(** ** Further facts about the [strings] functions *)

Lemma app_String (c : ascii) (s t : string) : String c s +:+ t = String c (s +:+ t).
Proof. reflexivity. Qed.

(** A string without the separator is a single token. *)
Lemma genSplit_single (sep s : string) :
  strings.Contains s sep = false -> strings.genSplit sep 0 s = [s].
Proof.
  induction s as [|c s IH]; intros Hc; [reflexivity|].
  cbn [strings.Contains] in Hc. apply orb_false_iff in Hc as [Hp Hc].
  cbn [strings.genSplit]. rewrite Hp, (IH Hc). reflexivity.
Qed.

Lemma HasPrefix_comma (c : ascii) (s : string) :
  strings.HasPrefix (String c s) "," = Ascii.eqb c ",".
Proof. cbn [strings.HasPrefix]. destruct s; apply andb_true_r. Qed.

(** Splitting on the comma distributes over joining with a comma. *)
Lemma genSplit_comma_app (a b : string) :
  strings.genSplit "," 0 (a +:+ "," +:+ b)
  = strings.genSplit "," 0 a ++ strings.genSplit "," 0 b.
Proof.
  induction a as [|c a IH].
  - change ("" +:+ "," +:+ b) with (String "," b).
    cbn [strings.genSplit]. rewrite HasPrefix_comma. reflexivity.
  - rewrite app_String. cbn [strings.genSplit].
    rewrite !HasPrefix_comma.
    change (String.length "," - 1) with 0.
    rewrite IH. destruct (Ascii.eqb c ","); [reflexivity|].
    pose proof (genSplit_nonempty "," 0 a) as Hne.
    destruct (strings.genSplit "," 0 a); [congruence | reflexivity].
Qed.

Lemma Contains_comma_app (a b : string) :
  strings.Contains (a +:+ b) "," = strings.Contains a "," || strings.Contains b ",".
Proof.
  induction a as [|c a IH]; [reflexivity|].
  rewrite app_String. cbn [strings.Contains].
  rewrite !HasPrefix_comma, IH. now rewrite orb_assoc.
Qed.

(** Trimming, on strings made of bytes of the cut set only (those that
    [TrimLeft] empties). *)
Lemma TrimLeft_blank_inv (c : ascii) (l cutset : string) :
  strings.TrimLeft (String c l) cutset = "" ->
  strings.contains cutset c = true /\ strings.TrimLeft l cutset = "".
Proof.
  cbn [strings.TrimLeft]. destruct (strings.contains cutset c); [tauto | discriminate].
Qed.

Lemma TrimRight_blank (r cutset : string) :
  strings.TrimLeft r cutset = "" -> strings.TrimRight r cutset = "".
Proof.
  induction r as [|c r IH]; intros Hb; [reflexivity|].
  apply TrimLeft_blank_inv in Hb as [Hc Hb].
  cbn [strings.TrimRight]. now rewrite (IH Hb), Hc.
Qed.

Lemma TrimRight_app_blank (s r cutset : string) :
  strings.TrimLeft r cutset = "" ->
  strings.TrimRight (s +:+ r) cutset = strings.TrimRight s cutset.
Proof.
  intros Hb. induction s as [|c s IH].
  - now apply TrimRight_blank.
  - rewrite app_String. cbn [strings.TrimRight]. now rewrite IH.
Qed.

Lemma TrimRight_app_left (l t cutset : string) :
  strings.TrimRight (l +:+ t) cutset =
  match strings.TrimRight t cutset with
  | EmptyString => strings.TrimRight l cutset
  | String _ _ as t' => l +:+ t'
  end.
Proof.
  induction l as [|c l IH].
  - change ("" +:+ t) with t. now destruct (strings.TrimRight t cutset).
  - rewrite app_String. cbn [strings.TrimRight]. rewrite IH.
    destruct (strings.TrimRight t cutset) as [|a t']; [reflexivity|].
    rewrite app_String. now destruct l.
Qed.

Lemma TrimLeft_app_blank (l t cutset : string) :
  strings.TrimLeft l cutset = "" ->
  strings.TrimLeft (l +:+ t) cutset = strings.TrimLeft t cutset.
Proof.
  induction l as [|c l IH]; intros Hb; [reflexivity|].
  apply TrimLeft_blank_inv in Hb as [Hc Hb].
  rewrite app_String. cbn [strings.TrimLeft]. rewrite Hc. now apply IH.
Qed.

(** [Trim] removes a padding of cut-set bytes on both sides. *)
Lemma Trim_padding (l s r cutset : string) :
  strings.TrimLeft l cutset = "" -> strings.TrimLeft r cutset = "" ->
  strings.Trim (l +:+ s +:+ r) cutset = strings.Trim s cutset.
Proof.
  intros Hl Hr. unfold strings.Trim.
  rewrite TrimRight_app_left, (TrimRight_app_blank _ _ _ Hr).
  destruct (strings.TrimRight s cutset) as [|a t'].
  - now rewrite (TrimRight_blank _ _ Hl).
  - now apply TrimLeft_app_blank.
Qed.

Lemma blank_no_comma (l : string) :
  strings.TrimLeft l trimCutset = "" -> strings.Contains l "," = false.
Proof.
  induction l as [|c l IH]; intros Hb; [reflexivity|].
  apply TrimLeft_blank_inv in Hb as [Hc Hb].
  cbn [strings.Contains]. rewrite (IH Hb), orb_false_r.
  rewrite HasPrefix_comma.
  destruct (Ascii.eqb_spec c ",") as [->|]; [discriminate | reflexivity].
Qed.

(** Lowercasing of ASCII bytes: it is idempotent, keeps a byte in ASCII,
    and neither produces nor removes a comma, a space or a byte of the trim
    cut set. *)
Lemma lowerByte_idem (c : ascii) : strings.lowerByte (strings.lowerByte c) = strings.lowerByte c.
Proof. destruct c as [[] [] [] [] [] [] [] []]; reflexivity. Qed.

Lemma lowerByte_isASCII (c : ascii) :
  strings.isASCIIByte (strings.lowerByte c) = strings.isASCIIByte c.
Proof. destruct c as [[] [] [] [] [] [] [] []]; reflexivity. Qed.

Lemma lowerByte_comma (c : ascii) : Ascii.eqb (strings.lowerByte c) "," = Ascii.eqb c ",".
Proof. destruct c as [[] [] [] [] [] [] [] []]; reflexivity. Qed.

Lemma lowerByte_space (c : ascii) : Ascii.eqb (strings.lowerByte c) " " = Ascii.eqb c " ".
Proof. destruct c as [[] [] [] [] [] [] [] []]; reflexivity. Qed.

Lemma lowerByte_cutset (c : ascii) :
  strings.contains trimCutset (strings.lowerByte c) = strings.contains trimCutset c.
Proof. destruct c as [[] [] [] [] [] [] [] []]; reflexivity. Qed.

Lemma lowerASCII_idem (s : string) :
  strings.lowerASCII (strings.lowerASCII s) = strings.lowerASCII s.
Proof.
  induction s as [|c s IH]; [reflexivity|].
  cbn [strings.lowerASCII]. now rewrite lowerByte_idem, IH.
Qed.

Lemma lowerASCII_isASCII (s : string) :
  strings.isASCII (strings.lowerASCII s) = strings.isASCII s.
Proof.
  induction s as [|c s IH]; [reflexivity|].
  cbn [strings.lowerASCII strings.isASCII]. now rewrite lowerByte_isASCII, IH.
Qed.

Lemma ToLower_ASCII (s : string) :
  strings.isASCII s = true -> ToLower s = strings.lowerASCII s.
Proof. intros Ha. unfold strings.ToLower. now rewrite Ha. Qed.

Lemma HasPrefix_comma_lower (s : string) :
  strings.HasPrefix (strings.lowerASCII s) "," = strings.HasPrefix s ",".
Proof.
  destruct s as [|c s]; [reflexivity|].
  cbn [strings.lowerASCII]. rewrite !HasPrefix_comma. apply lowerByte_comma.
Qed.

Lemma HasPrefix_comma_space_lower (s : string) :
  strings.HasPrefix (strings.lowerASCII s) ", " = strings.HasPrefix s ", ".
Proof.
  destruct s as [|c [|d s]]; try reflexivity.
  - cbn. now rewrite lowerByte_comma.
  - cbn [strings.lowerASCII strings.HasPrefix].
    rewrite lowerByte_comma, lowerByte_space. now destruct s.
Qed.

(** Splitting commutes with lowercasing, for a separator that lowercasing
    neither produces nor removes. *)
Lemma genSplit_lower (sep : string) (k : nat) (s : string) :
  (forall t, strings.HasPrefix (strings.lowerASCII t) sep = strings.HasPrefix t sep) ->
  strings.genSplit sep k (strings.lowerASCII s)
  = map strings.lowerASCII (strings.genSplit sep k s).
Proof.
  intros Hsep. revert k. induction s as [|c s IH]; intros k; [reflexivity|].
  destruct k as [|k]; [|apply IH].
  change (strings.lowerASCII (String c s))
    with (String (strings.lowerByte c) (strings.lowerASCII s)) at 1.
  cbn [strings.genSplit].
  change (String (strings.lowerByte c) (strings.lowerASCII s))
    with (strings.lowerASCII (String c s)).
  rewrite Hsep, !IH.
  destruct (strings.HasPrefix (String c s) sep); [reflexivity|].
  pose proof (genSplit_nonempty sep 0 s) as Hne.
  destruct (strings.genSplit sep 0 s); [congruence | reflexivity].
Qed.

Lemma TrimLeft_lower (s : string) :
  strings.TrimLeft (strings.lowerASCII s) trimCutset
  = strings.lowerASCII (strings.TrimLeft s trimCutset).
Proof.
  induction s as [|c s IH]; [reflexivity|].
  cbn [strings.lowerASCII strings.TrimLeft]. rewrite lowerByte_cutset, IH.
  now destruct (strings.contains trimCutset c).
Qed.

Lemma TrimRight_lower (s : string) :
  strings.TrimRight (strings.lowerASCII s) trimCutset
  = strings.lowerASCII (strings.TrimRight s trimCutset).
Proof.
  induction s as [|c s IH]; [reflexivity|].
  cbn [strings.lowerASCII strings.TrimRight]. rewrite lowerByte_cutset, IH.
  destruct (strings.TrimRight s trimCutset); [|reflexivity].
  now destruct (strings.contains trimCutset c).
Qed.

Lemma Trim_lower (s : string) :
  strings.Trim (strings.lowerASCII s) trimCutset
  = strings.lowerASCII (strings.Trim s trimCutset).
Proof. unfold strings.Trim. now rewrite TrimRight_lower, TrimLeft_lower. Qed.

(** The tokens and the trimmed tokens of an ASCII string are ASCII. *)
Lemma genSplit_isASCII (sep : string) (k : nat) (s tok : string) :
  strings.isASCII s = true -> In tok (strings.genSplit sep k s) ->
  strings.isASCII tok = true.
Proof.
  revert k tok. induction s as [|c s IH]; intros k tok Ha Hin.
  - destruct Hin as [<-|[]]. reflexivity.
  - cbn [strings.isASCII] in Ha. apply andb_true_iff in Ha as [Hc Ha].
    destruct k as [|k]; [|exact (IH _ _ Ha Hin)].
    cbn [strings.genSplit] in Hin.
    destruct (strings.HasPrefix (String c s) sep).
    + destruct Hin as [<-|Hin]; [reflexivity | exact (IH _ _ Ha Hin)].
    + destruct (strings.genSplit sep 0 s) as [|t rest] eqn:Hs.
      * destruct Hin as [<-|[]]. cbn. now rewrite Hc.
      * destruct Hin as [<-|Hin].
        -- cbn [strings.isASCII]. rewrite Hc. apply (IH 0). { exact Ha. }
           rewrite Hs. now left.
        -- apply (IH 0); [exact Ha|]. rewrite Hs. now right.
Qed.

Lemma TrimLeft_isASCII (s cutset : string) :
  strings.isASCII s = true -> strings.isASCII (strings.TrimLeft s cutset) = true.
Proof.
  induction s as [|c s IH]; intros Ha; [reflexivity|].
  cbn [strings.TrimLeft]. destruct (strings.contains cutset c); [|exact Ha].
  cbn [strings.isASCII] in Ha. apply andb_true_iff in Ha as [_ Ha]. now apply IH.
Qed.

Lemma TrimRight_isASCII (s cutset : string) :
  strings.isASCII s = true -> strings.isASCII (strings.TrimRight s cutset) = true.
Proof.
  induction s as [|c s IH]; intros Ha; [reflexivity|].
  cbn [strings.isASCII] in Ha. apply andb_true_iff in Ha as [Hc Ha].
  specialize (IH Ha). cbn [strings.TrimRight].
  destruct (strings.TrimRight s cutset) as [|a t].
  - destruct (strings.contains cutset c); [reflexivity|]. cbn. now rewrite Hc.
  - cbn [strings.isASCII] in *. now rewrite Hc.
Qed.

Lemma Trim_isASCII (s cutset : string) :
  strings.isASCII s = true -> strings.isASCII (strings.Trim s cutset) = true.
Proof. intros Ha. unfold strings.Trim. now apply TrimLeft_isASCII, TrimRight_isASCII. Qed.

Lemma forallb_ext_in {A : Type} (f g : A -> bool) (l : list A) :
  (forall x, In x l -> f x = g x) -> forallb f l = forallb g l.
Proof.
  induction l as [|x l IH]; intros H; [reflexivity|].
  cbn. rewrite (H x) by now left. rewrite IH; [reflexivity|].
  intros y Hy. apply H. now right.
Qed.

Lemma forallb_map {A B : Type} (f : B -> bool) (g : A -> B) (l : list A) :
  forallb f (map g l) = forallb (fun x => f (g x)) l.
Proof. induction l as [|x l IH]; [reflexivity|]. cbn. now rewrite IH. Qed.

(** ** Further properties of the header validation and of [prepare] *)

(** X7.  The header validation goes token by token: the value made of two
    values joined by a comma passes exactly when both pass. *)
Theorem header_validation_comma (config : Config) (a b : string) :
  validateRequestHeaders (a +:+ "," +:+ b) config
  = validateRequestHeaders a config && validateRequestHeaders b config.
Proof.
  unfold validateRequestHeaders.
  destruct (negb (ValidateHeaders config)); [reflexivity|].
  unfold strings.Split. rewrite genSplit_comma_app. apply forallb_app.
Qed.

Lemma validateRequestHeaders_lower (config : Config) (rh : string) :
  strings.isASCII rh = true ->
  validateRequestHeaders (ToLower rh) config = validateRequestHeaders rh config.
Proof.
  intros Ha. rewrite (ToLower_ASCII _ Ha). unfold validateRequestHeaders.
  destruct (negb (ValidateHeaders config)); [reflexivity|].
  unfold strings.Split.
  rewrite (genSplit_lower _ _ _ HasPrefix_comma_lower), forallb_map.
  apply forallb_ext_in. intros tok Hin.
  assert (Htok : strings.isASCII (strings.Trim tok trimCutset) = true)
    by (apply Trim_isASCII; exact (genSplit_isASCII _ _ _ _ Ha Hin)).
  rewrite Trim_lower.
  rewrite (ToLower_ASCII (strings.lowerASCII _))
    by (now rewrite lowerASCII_isASCII).
  now rewrite lowerASCII_idem, (ToLower_ASCII _ Htok).
Qed.

(** X8.  The header validation does not look at the case of an ASCII
    request value: two ASCII values with the same lowercase form get the
    same answer. *)
Theorem header_validation_ignores_case (config : Config) (rh1 rh2 : string) :
  strings.isASCII rh1 = true ->
  strings.isASCII rh2 = true ->
  ToLower rh1 = ToLower rh2 ->
  validateRequestHeaders rh1 config = validateRequestHeaders rh2 config.
Proof.
  intros H1 H2 Heq.
  rewrite <- (validateRequestHeaders_lower _ _ H1), <- (validateRequestHeaders_lower _ _ H2).
  now rewrite Heq.
Qed.

Lemma prepare_requestHeaders_ASCII (config : Config) :
  strings.isASCII (RequestHeaders config) = true ->
  requestHeaders (prepare config)
  = strings.Split (ToLower (RequestHeaders config)) ", ".
Proof.
  intros Ha. cbn [prepare requestHeaders]. rewrite (ToLower_ASCII _ Ha).
  unfold strings.Split.
  rewrite (genSplit_lower _ _ _ HasPrefix_comma_space_lower).
  apply map_ext_in. intros tok Hin. apply ToLower_ASCII.
  exact (genSplit_isASCII _ _ _ _ Ha Hin).
Qed.

(** X9.  Nor does it look at the case of an ASCII [RequestHeaders]: two
    configurations whose ASCII [RequestHeaders] have the same lowercase form
    are prepared to the same token list, and validate every request value
    alike when they agree on [ValidateHeaders]. *)
Theorem configured_headers_ignore_case (config1 config2 : Config) :
  strings.isASCII (RequestHeaders config1) = true ->
  strings.isASCII (RequestHeaders config2) = true ->
  ToLower (RequestHeaders config1) = ToLower (RequestHeaders config2) ->
  requestHeaders (prepare config1) = requestHeaders (prepare config2) /\
  (ValidateHeaders config1 = ValidateHeaders config2 ->
   forall rh, validateRequestHeaders rh (prepare config1)
              = validateRequestHeaders rh (prepare config2)).
Proof.
  intros H1 H2 Heq.
  assert (Hlist : requestHeaders (prepare config1) = requestHeaders (prepare config2))
    by (rewrite !prepare_requestHeaders_ASCII by assumption; now rewrite Heq).
  split; [exact Hlist|].
  intros Hv rh. unfold validateRequestHeaders. rewrite Hlist.
  change (ValidateHeaders (prepare config1)) with (ValidateHeaders config1).
  change (ValidateHeaders (prepare config2)) with (ValidateHeaders config2).
  now rewrite Hv.
Qed.

(** X10.  An [Origins] other than ["*"] without [", "] in it is a single
    token, whatever else it contains (commas without a space among it): the
    origin of a request passes exactly when it is that whole string; every
    other origin is rejected. *)
Theorem single_origin (config : Config) (h : baa.HandlerFunc) (c : baa.Context) :
  Cors config = Handler h ->
  Origins config <> "*" ->
  strings.Contains (Origins config) ", " = false ->
  originOf c <> "" ->
  origins (prepare config) = [Origins config] /\
  (OriginPasses config c <-> originOf c = Origins config) /\
  (originOf c <> Origins config -> Rejected c (h c)) /\
  (originOf c = Origins config -> ~ Preflight c -> baa.chain (h c) = baa.Next).
Proof.
  intros Hc Hw Hsep Ho. destruct (Cors_Handler_inv _ _ Hc) as [_ ->].
  assert (Hone : strings.Split (Origins config) ", " = [Origins config])
    by now apply genSplit_single.
  assert (Hpass : OriginPasses config c <-> originOf c = Origins config).
  { unfold OriginPasses. rewrite Hone. cbn [In]. split.
    - intros [?|[?|[]]]; congruence.
    - intros ->. right. now left. }
  split; [exact Hone|]. split; [exact Hpass|]. split.
  - intros Hne. rewrite middleware_reject; [split; reflexivity | assumption |].
    apply not_In_reject; [assumption|]. rewrite Hone. cbn [In].
    intros [?|[]]. congruence.
  - intros Heq Hp. apply Hpass, OriginPasses_ok in Heq.
    now rewrite middleware_simple.
Qed.

(** X11.  The header validation does not look at the spaces, tabs, carriage
    returns and line feeds around a token: a value without a comma passes
    exactly when the same value padded with such bytes on both sides does. *)
Theorem header_validation_padding (config : Config) (l s r : string) :
  strings.TrimLeft l trimCutset = "" ->
  strings.TrimLeft r trimCutset = "" ->
  strings.Contains s "," = false ->
  validateRequestHeaders (l +:+ s +:+ r) config = validateRequestHeaders s config.
Proof.
  intros Hl Hr Hs. unfold validateRequestHeaders.
  destruct (negb (ValidateHeaders config)); [reflexivity|].
  unfold strings.Split.
  rewrite (genSplit_single "," s Hs).
  rewrite (genSplit_single "," (l +:+ s +:+ r))
    by (rewrite !Contains_comma_app, Hs, !blank_no_comma by assumption; reflexivity).
  cbn [forallb]. now rewrite Trim_padding.
Qed.

(** ** What [Split], [Trim] and [ToLower] do to a request value *)

Lemma append_assoc (a b c : string) : (a +:+ b) +:+ c = a +:+ b +:+ c.
Proof.
  induction a as [|x a IH]; [reflexivity|].
  rewrite !app_String. now rewrite IH.
Qed.

(** [TrimLeft] empties exactly the strings made of cut-set bytes. *)
Lemma blank_TrimLeft (l cutset : string) :
  forallb (strings.contains cutset) (String.list_ascii_of_string l) = true <->
  strings.TrimLeft l cutset = "".
Proof.
  induction l as [|c l IH]; [cbn; tauto|].
  cbn [String.list_ascii_of_string forallb strings.TrimLeft].
  destruct (strings.contains cutset c); cbn [andb]; [exact IH|].
  split; discriminate.
Qed.

Lemma TrimLeft_decomp (s cutset : string) :
  exists l, s = l +:+ strings.TrimLeft s cutset /\ strings.TrimLeft l cutset = "".
Proof.
  induction s as [|c s (l & Heq & Hl)]; [now exists ""|].
  cbn [strings.TrimLeft]. destruct (strings.contains cutset c) eqn:Hc.
  - exists (String c l). rewrite app_String, <- Heq. split; [reflexivity|].
    cbn [strings.TrimLeft]. now rewrite Hc.
  - now exists "".
Qed.

Lemma TrimRight_decomp (s cutset : string) :
  exists r, s = strings.TrimRight s cutset +:+ r /\ strings.TrimLeft r cutset = "".
Proof.
  induction s as [|c s (r & Heq & Hr)]; [now exists ""|].
  cbn [strings.TrimRight].
  destruct (strings.TrimRight s cutset) as [|b t].
  - change ("" +:+ r) with r in Heq. subst s.
    destruct (strings.contains cutset c) eqn:Hc.
    + exists (String c r). split; [reflexivity|].
      cbn [strings.TrimLeft]. now rewrite Hc.
    + exists r. split; [reflexivity | exact Hr].
  - exists r. rewrite app_String, <- Heq. split; [reflexivity | exact Hr].
Qed.

(** A string is its trimmed form between two runs of cut-set bytes. *)
Lemma Trim_decomp (s cutset : string) :
  exists l r,
    s = l +:+ strings.Trim s cutset +:+ r /\
    strings.TrimLeft l cutset = "" /\ strings.TrimLeft r cutset = "".
Proof.
  destruct (TrimRight_decomp s cutset) as (r & Hr & Hrb).
  destruct (TrimLeft_decomp (strings.TrimRight s cutset) cutset) as (l & Hl & Hlb).
  exists l, r. split; [|tauto].
  unfold strings.Trim. rewrite <- append_assoc, <- Hl. exact Hr.
Qed.

Lemma TrimLeft_head (s cutset : string) (c : ascii) (rest : string) :
  strings.TrimLeft s cutset = String c rest -> strings.contains cutset c = false.
Proof.
  induction s as [|a s IH]; [discriminate|].
  cbn [strings.TrimLeft]. destruct (strings.contains cutset a) eqn:Ha; [exact IH|].
  intros [= <- _]. exact Ha.
Qed.

Lemma TrimRight_last (s cutset init : string) (c : ascii) :
  strings.TrimRight s cutset = init +:+ String c "" ->
  strings.contains cutset c = false.
Proof.
  revert init. induction s as [|a s IH]; intros init.
  - destruct init; discriminate.
  - cbn [strings.TrimRight].
    destruct (strings.TrimRight s cutset) as [|b t].
    + destruct (strings.contains cutset a) eqn:Ha.
      * destruct init; discriminate.
      * destruct init as [|x init].
        -- intros [= <-]. exact Ha.
        -- rewrite app_String. intros [= _ H]. destruct init; discriminate.
    + destruct init as [|x init].
      * discriminate.
      * rewrite app_String. intros [= _ H]. exact (IH _ H).
Qed.

Lemma Trim_head (s cutset : string) (c : ascii) (rest : string) :
  strings.Trim s cutset = String c rest -> strings.contains cutset c = false.
Proof. apply TrimLeft_head. Qed.

Lemma Trim_last (s cutset init : string) (c : ascii) :
  strings.Trim s cutset = init +:+ String c "" ->
  strings.contains cutset c = false.
Proof.
  unfold strings.Trim. intros Ht.
  destruct (TrimLeft_decomp (strings.TrimRight s cutset) cutset) as (l & Hl & _).
  rewrite Ht, <- append_assoc in Hl. exact (TrimRight_last _ _ _ _ Hl).
Qed.

(** The cut set is the space, the tab, the carriage return and the line
    feed. *)
Lemma trimCutset_bytes (c : ascii) :
  strings.contains trimCutset c = true <->
  c = " "%char \/ c = "009"%char \/ c = "013"%char \/ c = "010"%char.
Proof.
  unfold trimCutset. cbn [strings.contains].
  rewrite !orb_true_iff, !Ascii.eqb_eq. intuition congruence.
Qed.

(** C6.  In strict mode the raw [Access-Control-Request-Headers] value is
    split on commas, every token is trimmed of spaces, tabs, carriage returns
    and line feeds and lowercased, and the validation passes exactly when
    every such token is among the lowercased configured tokens, so
    [Content-Type] passes against a configured [content-type]; outside strict
    mode every value passes.  The three steps are pinned down on their own:
    the tokens joined by commas give the value back and hold no comma; a
    token is its trimmed form between two runs of the four cut-set bytes,
    and the trimmed form neither starts nor ends with one of them, so that a
    padding on either side of a token changes nothing; lowercasing sends the
    letters [A] to [Z] to [a] to [z] and leaves the other ASCII bytes. *)
Theorem header_validation (config : Config) (rh : string) :
  (ValidateHeaders config = true ->
     (validateRequestHeaders rh (prepare config) = true <->
      Forall
        (fun tok =>
           In (ToLower (strings.Trim tok trimCutset))
              (map ToLower (strings.Split (RequestHeaders config) ", ")))
        (strings.Split rh ","))) /\
  (ValidateHeaders config = false ->
     validateRequestHeaders rh (prepare config) = true) /\
  (ValidateHeaders config = true -> RequestHeaders config = "content-type" ->
     validateRequestHeaders "Content-Type" (prepare config) = true) /\
  (ValidateHeaders config = true -> RequestHeaders config = "Content-Type" ->
     validateRequestHeaders "content-type, CONTENT-TYPE" (prepare config) = true) /\
  (* splitting on commas *)
  (strings.Join (strings.Split rh ",") "," = rh /\
   forall tok, In tok (strings.Split rh ",") -> strings.Contains tok "," = false) /\
  (* trimming on both sides *)
  (forall c, strings.contains trimCutset c = true <->
             c = " "%char \/ c = "009"%char \/ c = "013"%char \/ c = "010"%char) /\
  (forall tok,
     (exists l r,
        tok = l +:+ strings.Trim tok trimCutset +:+ r /\
        forallb (strings.contains trimCutset) (String.list_ascii_of_string l) = true /\
        forallb (strings.contains trimCutset) (String.list_ascii_of_string r) = true) /\
     (forall c rest, strings.Trim tok trimCutset = String c rest ->
                     strings.contains trimCutset c = false) /\
     (forall init c, strings.Trim tok trimCutset = init +:+ String c "" ->
                     strings.contains trimCutset c = false)) /\
  (forall l s r,
     forallb (strings.contains trimCutset) (String.list_ascii_of_string l) = true ->
     forallb (strings.contains trimCutset) (String.list_ascii_of_string r) = true ->
     strings.Contains s "," = false ->
     validateRequestHeaders (l +:+ s +:+ r) (prepare config)
     = validateRequestHeaders s (prepare config)) /\
  (ValidateHeaders config = true -> RequestHeaders config = "Origin, Content-Type" ->
     validateRequestHeaders
       (String " " (String "009" "Content-Type")
        +:+ String "013" (String "010" ",ORIGIN  "))
       (prepare config) = true /\
     validateRequestHeaders "Content-Type " (prepare config) = true /\
     validateRequestHeaders " Content-Type" (prepare config) = true /\
     validateRequestHeaders "Content-Type, X-Other" (prepare config) = false /\
     validateRequestHeaders "Content -Type" (prepare config) = false) /\
  (* lowercasing *)
  (ToLower "ABCDEFGHIJKLMNOPQRSTUVWXYZ" = "abcdefghijklmnopqrstuvwxyz" /\
   ToLower "abcxyz0123456789-_@[`{ ,;" = "abcxyz0123456789-_@[`{ ,;").
Proof.
  split; [|split; [|split; [|split; [|split; [|split; [|split; [|split; [|split]]]]]]]].
  - unfold validateRequestHeaders.
    change (ValidateHeaders (prepare config)) with (ValidateHeaders config).
    change (requestHeaders (prepare config))
      with (map ToLower (strings.Split (RequestHeaders config) ", ")).
    intros ->. cbn [negb]. rewrite List.Forall_forall, forallb_forall.
    split; intros H tok Hin; apply existsb_eqb_In; apply H; assumption.
  - unfold validateRequestHeaders.
    change (ValidateHeaders (prepare config)) with (ValidateHeaders config).
    intros ->. reflexivity.
  - unfold validateRequestHeaders, prepare. cbn [ValidateHeaders requestHeaders].
    intros -> ->. reflexivity.
  - unfold validateRequestHeaders, prepare. cbn [ValidateHeaders requestHeaders].
    intros -> ->. reflexivity.
  - assert (Hsep : "," <> "") by discriminate. split.
    + now apply Split_Join.
    + intros tok. now apply genSplit_no_sep.
  - apply trimCutset_bytes.
  - intros tok. split; [|split].
    + destruct (Trim_decomp tok trimCutset) as (l & r & Heq & Hl & Hr).
      exists l, r. rewrite !blank_TrimLeft. tauto.
    + apply Trim_head.
    + apply Trim_last.
  - intros l s r Hl Hr Hs. apply blank_TrimLeft in Hl, Hr.
    unfold validateRequestHeaders.
    destruct (negb (ValidateHeaders (prepare config))); [reflexivity|].
    unfold strings.Split.
    rewrite (genSplit_single "," s Hs).
    rewrite (genSplit_single "," (l +:+ s +:+ r))
      by (rewrite !Contains_comma_app, Hs, !blank_no_comma by assumption; reflexivity).
    cbn [forallb]. now rewrite Trim_padding.
  - unfold validateRequestHeaders, prepare. cbn [ValidateHeaders requestHeaders].
    intros -> ->. repeat split; reflexivity.
  - split; reflexivity.
Qed.

End Cors.

(** ** The properties on the sample requests *)

Import Samples.

(** An origin outside the list is rejected. *)
Lemma origin_admission_witness :
  Rejected (getFrom "https://c.com")
    (middleware lowerStandIn false (prepare lowerStandIn secondsStandIn strictConfig)
       (getFrom "https://c.com")).
Proof.
  assert (Hc : Cors lowerStandIn secondsStandIn strictConfig
               = Handler (middleware lowerStandIn false
                            (prepare lowerStandIn secondsStandIn strictConfig)))
    by reflexivity.
  assert (Ho : originOf (getFrom "https://c.com") <> "")
    by (vm_compute; discriminate).
  destruct (origin_admission lowerStandIn secondsStandIn strictConfig _
              (getFrom "https://c.com") Hc Ho) as [Hlist _].
  destruct (Hlist ltac:(discriminate)) as [Hrej _].
  apply Hrej. vm_compute. intuition discriminate.
Defined.

(** C1, the claim as stated fails: the origin is one of the configured
    tokens, and the request (a preflight asking for a method that strict
    validation refuses) is rejected all the same. *)
Lemma admitted_origin_still_rejected :
  Cors lowerStandIn secondsStandIn strictConfig
  = Handler (middleware lowerStandIn false
               (prepare lowerStandIn secondsStandIn strictConfig)) /\
  Origins strictConfig = "https://a.com, https://b.com" /\
  originOf (preflightFrom "https://a.com" "DELETE") = "https://a.com" /\
  In "https://a.com" (strings.Split (Origins strictConfig) ", ") /\
  Rejected (preflightFrom "https://a.com" "DELETE")
    (middleware lowerStandIn false (prepare lowerStandIn secondsStandIn strictConfig)
       (preflightFrom "https://a.com" "DELETE")).
Proof.
  repeat split; try reflexivity. vm_compute. now left.
Qed.

(** A preflight from a listed origin that passes strict validation is
    answered with the two allow headers; [Access-Control-Max-Age] is left
    out as [maxAge] is ["0"]. *)
Lemma preflight_response_witness :
  baa.chain (middleware lowerStandIn false
               (prepare lowerStandIn secondsStandIn strictConfig)
               (request "OPTIONS"
                  [(OriginKey, ["https://b.com"]); (RequestMethodKey, ["POST"]);
                   (RequestHeadersKey, ["Content-Type, authorization"])]))
  = baa.Break /\
  baa.header (middleware lowerStandIn false
                (prepare lowerStandIn secondsStandIn strictConfig)
                (request "OPTIONS"
                   [(OriginKey, ["https://b.com"]); (RequestMethodKey, ["POST"]);
                    (RequestHeadersKey, ["Content-Type, authorization"])]))
  = {[ VaryKey := [OriginKey];
       AllowMethodsKey := ["GET, POST"];
       AllowHeadersKey := ["Origin, Authorization, Content-Type"] ]}.
Proof.
  set (c := request "OPTIONS"
              [(OriginKey, ["https://b.com"]); (RequestMethodKey, ["POST"]);
               (RequestHeadersKey, ["Content-Type, authorization"])]).
  assert (Hc : Cors lowerStandIn secondsStandIn strictConfig
               = Handler (middleware lowerStandIn false
                            (prepare lowerStandIn secondsStandIn strictConfig)))
    by reflexivity.
  assert (Ho : originOf c <> "") by (vm_compute; discriminate).
  assert (Ha : OriginPasses strictConfig c) by (right; vm_compute; tauto).
  assert (Hp : Preflight c) by (split; [reflexivity | vm_compute; discriminate]).
  destruct (preflight_response lowerStandIn secondsStandIn strictConfig _ c Hc Ho Ha Hp)
    as (Hbreak & Hvalid & _).
  split; [exact Hbreak|].
  rewrite (Hvalid ltac:(reflexivity)). vm_compute. reflexivity.
Defined.

(** A request without [Origin] goes on with [Vary: Origin] and nothing else. *)
Lemma no_origin_continues_witness :
  middleware lowerStandIn true (prepare lowerStandIn secondsStandIn config0)
    getWithoutOrigin
  = {| baa.chain := baa.Next; baa.header := {[ VaryKey := [OriginKey] ]} |}.
Proof.
  assert (Hc : Cors lowerStandIn secondsStandIn config0
               = Handler (middleware lowerStandIn true
                            (prepare lowerStandIn secondsStandIn config0)))
    by reflexivity.
  destruct (no_origin_continues lowerStandIn secondsStandIn config0 _
              getWithoutOrigin Hc) as [Hnone _].
  rewrite (Hnone ltac:(reflexivity)). vm_compute. reflexivity.
Defined.

(** With credentials enabled under the wildcard policy, the request's origin
    is echoed and the credentials header is ["true"]. *)
Lemma allow_origin_assembly_witness :
  baa.header (middleware lowerStandIn true
                (prepare lowerStandIn secondsStandIn config0)
                (getFrom "https://a.com")) !! AllowOriginKey
  = Some ["https://a.com"] /\
  baa.header (middleware lowerStandIn true
                (prepare lowerStandIn secondsStandIn config0)
                (getFrom "https://a.com")) !! AllowCredentialsKey
  = Some ["true"].
Proof.
  set (c := getFrom "https://a.com").
  assert (Hc : Cors lowerStandIn secondsStandIn config0
               = Handler (middleware lowerStandIn true
                            (prepare lowerStandIn secondsStandIn config0)))
    by reflexivity.
  assert (Ho : originOf c <> "") by (vm_compute; discriminate).
  assert (Ha : OriginPasses config0 c) by (left; reflexivity).
  assert (Hp : ~ Preflight c) by (intros [Hm _]; vm_compute in Hm; discriminate).
  destruct (allow_origin_assembly lowerStandIn secondsStandIn config0 _ c Hc Ho Ha Hp)
    as (_ & Hcred & _).
  destruct (Hcred ltac:(reflexivity)) as (Hacac & Htrue & Hacao & _).
  split; [exact Hacao|]. rewrite Hacac, Htrue. reflexivity.
Defined.

(** C4.  The code at the request that breaks the claim: under the default
    configuration (wildcard policy, credentials enabled) a [GET] sent with
    [Origin: *] goes on to the next handler with
    [Access-Control-Allow-Credentials: true] and
    [Access-Control-Allow-Origin: *], the pairing that the comment on line
    166 rules out and that echoing the origin on line 167 is there to
    avoid. *)
Lemma credentials_with_star_origin :
  Cors lowerStandIn secondsStandIn config0
  = Handler (middleware lowerStandIn true
               (prepare lowerStandIn secondsStandIn config0)) /\
  Credentials config0 = true /\
  originOf (getFrom "*") = "*" /\
  baa.chain (middleware lowerStandIn true
               (prepare lowerStandIn secondsStandIn config0) (getFrom "*"))
  = baa.Next /\
  baa.header (middleware lowerStandIn true
                (prepare lowerStandIn secondsStandIn config0) (getFrom "*"))
    !! AllowCredentialsKey = Some ["true"] /\
  baa.header (middleware lowerStandIn true
                (prepare lowerStandIn secondsStandIn config0) (getFrom "*"))
    !! AllowOriginKey = Some ["*"].
Proof. repeat split; reflexivity. Qed.

(** A bare [OPTIONS] request from a listed origin is an actual request. *)
Lemma request_classification_witness :
  baa.chain (middleware lowerStandIn false
               (prepare lowerStandIn secondsStandIn strictConfig)
               (bareOptionsFrom "https://a.com"))
  = baa.Next /\
  baa.chain (middleware lowerStandIn false
               (prepare lowerStandIn secondsStandIn strictConfig)
               (preflightFrom "https://a.com" "GET"))
  = baa.Break.
Proof.
  assert (Hc : Cors lowerStandIn secondsStandIn strictConfig
               = Handler (middleware lowerStandIn false
                            (prepare lowerStandIn secondsStandIn strictConfig)))
    by reflexivity.
  split.
  - set (c := bareOptionsFrom "https://a.com").
    assert (Ho : originOf c <> "") by (vm_compute; discriminate).
    assert (Ha : OriginPasses strictConfig c) by (right; vm_compute; tauto).
    destruct (request_classification lowerStandIn secondsStandIn strictConfig _ c
                Hc Ho Ha) as (_ & _ & _ & Hbare).
    apply Hbare; [reflexivity | left; reflexivity].
  - set (c := preflightFrom "https://a.com" "GET").
    assert (Ho : originOf c <> "") by (vm_compute; discriminate).
    assert (Ha : OriginPasses strictConfig c) by (right; vm_compute; tauto).
    destruct (request_classification lowerStandIn secondsStandIn strictConfig _ c
                Hc Ho Ha) as (Hiff & _).
    apply Hiff. split; [reflexivity | vm_compute; discriminate].
Defined.

(** C8, the claim as stated fails: a token of the prepared method list
    starts with a space, which trimming would remove. *)
Lemma prepared_token_not_trimmed :
  Methods spacedConfig = "GET,  PUT" /\
  methods (prepare lowerStandIn secondsStandIn spacedConfig) = ["GET"; " PUT"] /\
  strings.HasPrefix " PUT" " " = true /\
  strings.Trim " PUT" trimCutset = "PUT".
Proof. repeat split; reflexivity. Qed.

(** A strict preflight that sends no [Access-Control-Request-Headers] gets
    no allow header when the configured list has no empty token. *)
Lemma empty_request_headers_witness :
  middleware lowerStandIn false (prepare lowerStandIn secondsStandIn strictConfig)
    (preflightFrom "https://a.com" "GET")
  = {| baa.chain := baa.Break; baa.header := {[ VaryKey := [OriginKey] ]} |}.
Proof.
  set (c := preflightFrom "https://a.com" "GET").
  assert (Hc : Cors lowerStandIn secondsStandIn strictConfig
               = Handler (middleware lowerStandIn false
                            (prepare lowerStandIn secondsStandIn strictConfig)))
    by reflexivity.
  assert (Ho : originOf c <> "") by (vm_compute; discriminate).
  assert (Ha : OriginPasses strictConfig c) by (right; vm_compute; tauto).
  assert (Hp : Preflight c) by (split; [reflexivity | vm_compute; discriminate]).
  destruct (empty_request_headers lowerStandIn secondsStandIn strictConfig _ c
              Hc Ho Ha Hp ltac:(reflexivity) ltac:(reflexivity))
    as (_ & _ & Hnone & _).
  rewrite Hnone by (vm_compute; intuition discriminate).
  vm_compute. reflexivity.
Defined.

(** ** The further properties on the sample requests *)

(** A [GET] from a listed origin goes on to the next handler. *)
Lemma next_iff_witness :
  baa.chain (middleware lowerStandIn false
               (prepare lowerStandIn secondsStandIn strictConfig)
               (getFrom "https://b.com"))
  = baa.Next.
Proof.
  apply (next_iff lowerStandIn secondsStandIn strictConfig _ (getFrom "https://b.com"));
    [reflexivity|].
  right. split.
  - right. vm_compute. tauto.
  - intros [Hm _]. vm_compute in Hm. discriminate.
Defined.

(** The configured [X-Total] is exposed to a [GET] from a listed origin. *)
Lemma expose_headers_witness :
  baa.header (middleware lowerStandIn false
                (prepare lowerStandIn secondsStandIn strictConfig)
                (getFrom "https://a.com")) !! ExposeHeadersKey
  = Some ["X-Total"].
Proof.
  assert (Hc : Cors lowerStandIn secondsStandIn strictConfig
               = Handler (middleware lowerStandIn false
                            (prepare lowerStandIn secondsStandIn strictConfig)))
    by reflexivity.
  destruct (expose_headers lowerStandIn secondsStandIn strictConfig _
              (getFrom "https://a.com") Hc) as [Hset _].
  apply Hset. repeat split.
  - vm_compute. discriminate.
  - right. vm_compute. tauto.
  - intros [Hm _]. vm_compute in Hm. discriminate.
  - discriminate.
Defined.

(** A [Content-Type] the response already has is kept. *)
Lemma other_headers_untouched_witness :
  baa.header (middleware lowerStandIn true
                (prepare lowerStandIn secondsStandIn config0)
                {| baa.Req := baa.Req (getFrom "https://a.com");
                   baa.Resp := {[ "Content-Type" := ["text/plain"] ]} |})
    !! "Content-Type"
  = Some ["text/plain"].
Proof.
  rewrite (other_headers_untouched lowerStandIn secondsStandIn config0
             (middleware lowerStandIn true (prepare lowerStandIn secondsStandIn config0))).
  - reflexivity.
  - reflexivity.
  - cbn [In]. intuition discriminate.
Defined.

(** Outside strict mode a preflight asking for [PATCH] gets the configured
    method list all the same. *)
Lemma lenient_preflight_witness :
  baa.header (middleware lowerStandIn true
                (prepare lowerStandIn secondsStandIn config0)
                (preflightFrom "https://a.com" "PATCH")) !! AllowMethodsKey
  = Some ["GET, PUT, POST, DELETE"].
Proof.
  set (c := preflightFrom "https://a.com" "PATCH").
  assert (Hc : Cors lowerStandIn secondsStandIn config0
               = Handler (middleware lowerStandIn true
                            (prepare lowerStandIn secondsStandIn config0)))
    by reflexivity.
  assert (Ho : originOf c <> "") by (vm_compute; discriminate).
  assert (Ha : OriginPasses config0 c) by (left; reflexivity).
  assert (Hp : Preflight c) by (split; [reflexivity | vm_compute; discriminate]).
  destruct (lenient_preflight lowerStandIn secondsStandIn config0 _ c
              Hc ltac:(reflexivity) Ho Ha Hp) as [Hm _].
  exact Hm.
Defined.

(** With credentials disabled the credentials header stays absent. *)
Lemma credentials_never_false_witness :
  baa.header (middleware lowerStandIn false
                (prepare lowerStandIn secondsStandIn strictConfig)
                (getFrom "https://a.com")) !! AllowCredentialsKey
  = baa.Resp (getFrom "https://a.com") !! AllowCredentialsKey \/
  baa.header (middleware lowerStandIn false
                (prepare lowerStandIn secondsStandIn strictConfig)
                (getFrom "https://a.com")) !! AllowCredentialsKey
  = Some ["true"].
Proof.
  apply (credentials_never_false lowerStandIn secondsStandIn strictConfig).
  reflexivity.
Defined.

(** [Content-Type] and [CONTENT-TYPE] are validated alike. *)
Lemma header_validation_ignores_case_witness :
  validateRequestHeaders lowerStandIn "Content-Type"
    (prepare lowerStandIn secondsStandIn strictConfig)
  = validateRequestHeaders lowerStandIn "CONTENT-TYPE"
      (prepare lowerStandIn secondsStandIn strictConfig).
Proof.
  apply header_validation_ignores_case; reflexivity.
Defined.

(** [Content-Type] and [content-type] are prepared alike. *)
Lemma configured_headers_ignore_case_witness :
  requestHeaders (prepare lowerStandIn secondsStandIn spacedConfig)
  = requestHeaders
      (prepare lowerStandIn secondsStandIn
         {| ValidateHeaders := true; Origins := "*"; origins := [];
            RequestHeaders := "content-type"; requestHeaders := [];
            ExposedHeaders := ""; Methods := "GET"; methods := [];
            MaxAge := 0; maxAge := ""; Credentials := false; credentials := "" |}).
Proof.
  apply configured_headers_ignore_case; reflexivity.
Defined.

(** With the single origin [https://a.com], [https://b.com] is rejected. *)
Lemma single_origin_witness :
  Rejected (getFrom "https://b.com")
    (middleware lowerStandIn false (prepare lowerStandIn secondsStandIn spacedConfig)
       (getFrom "https://b.com")).
Proof.
  assert (Hc : Cors lowerStandIn secondsStandIn spacedConfig
               = Handler (middleware lowerStandIn false
                            (prepare lowerStandIn secondsStandIn spacedConfig)))
    by reflexivity.
  assert (Ho : originOf (getFrom "https://b.com") <> "")
    by (vm_compute; discriminate).
  destruct (single_origin lowerStandIn secondsStandIn spacedConfig _
              (getFrom "https://b.com") Hc ltac:(discriminate) ltac:(reflexivity) Ho)
    as (_ & _ & Hrej & _).
  apply Hrej. vm_compute. discriminate.
Defined.

(** A padded [Content-Type] is validated like the bare one. *)
Lemma header_validation_padding_witness :
  validateRequestHeaders lowerStandIn ("  " +:+ "Content-Type" +:+ " ")
    (prepare lowerStandIn secondsStandIn strictConfig)
  = validateRequestHeaders lowerStandIn "Content-Type"
      (prepare lowerStandIn secondsStandIn strictConfig).
Proof.
  apply header_validation_padding; reflexivity.
Defined.
